(** * sjis2utf8: a shallow embedding of the converter and its properties

    The development follows the Python package [sjis2utf8] module by module:
    [models.py] (enumerations and records), [detector.py] (encoding
    detection), [converter.py] (per-file conversion), [backup.py] (backup,
    manifest, restore), [scanner.py] (directory scan) and the conversion loop
    of [cli.py].

    Conventions of the embedding:
    - [bytes] is [list byte]; a Python [str] holding file text is a list of
      code points ([list Z]); path names, messages and JSON strings are
      [string];
    - Python exceptions are values of [exn]; code with effects lives in the
      monad [M], a state monad over the file system [FS] whose state survives
      a raised exception, as Python's does;
    - the codecs and library functions the package calls but does not define
      (CP932 decoding, [json], [fnmatch], [str.lower]) are section variables;
      UTF-8, [pathlib] and the file operations have executable models. *)

From Stdlib Require Import ZArith Lia List String Ascii.
From Stdlib.Strings Require Import Byte.
From stdpp Require Import gmap strings list pretty.

Open Scope string_scope.
Open Scope list_scope.
Open Scope Z_scope.

(** ** Bytes *)

Abbreviation bytes := (list byte).

Definition byte_to_Z (b : byte) : Z := Z.of_N (Byte.to_N b).

Definition byte_of_Z (z : Z) : byte :=
  match Byte.of_N (Z.to_N z) with
  | Some b => b
  | None => x00
  end.

Definition byte_eqb (a b : byte) : bool := byte_to_Z a =? byte_to_Z b.

(** [data.startswith(prefix)] *)
Fixpoint startswith (prefix data : bytes) : bool :=
  match prefix, data with
  | [], _ => true
  | _ :: _, [] => false
  | p :: prefix', d :: data' => byte_eqb p d && startswith prefix' data'
  end.

(** [b in data] for a one-byte needle *)
Fixpoint contains_byte (b : byte) (data : bytes) : bool :=
  match data with
  | [] => false
  | d :: data' => byte_eqb b d || contains_byte b data'
  end.

(** ** Text and the UTF-8 codec

    A Python [str] is a sequence of code points in [0, 0x10FFFF]; the strict
    UTF-8 codec refuses the surrogates [0xD800..0xDFFF] in both directions,
    and the decoder refuses overlong forms and values above [0x10FFFF]. *)

Abbreviation str := (list Z).

Definition is_surrogate (c : Z) : bool := (0xD800 <=? c) && (c <=? 0xDFFF).

Definition is_scalar (c : Z) : Prop :=
  0 <= c <= 0x10FFFF /\ ~ (0xD800 <= c <= 0xDFFF).

Definition utf8_encode_char (c : Z) : option bytes :=
  if c <? 0 then None
  else if c <? 0x80 then Some [byte_of_Z c]
  else if c <? 0x800 then
    Some [byte_of_Z (0xC0 + c / 64); byte_of_Z (0x80 + c mod 64)]
  else if c <? 0x10000 then
    if is_surrogate c then None
    else Some [byte_of_Z (0xE0 + c / 4096);
               byte_of_Z (0x80 + (c / 64) mod 64);
               byte_of_Z (0x80 + c mod 64)]
  else if c <=? 0x10FFFF then
    Some [byte_of_Z (0xF0 + c / 262144);
          byte_of_Z (0x80 + (c / 4096) mod 64);
          byte_of_Z (0x80 + (c / 64) mod 64);
          byte_of_Z (0x80 + c mod 64)]
  else None.

(** [text.encode("utf-8")]: [None] stands for [UnicodeEncodeError]. *)
Fixpoint utf8_encode (text : str) : option bytes :=
  match text with
  | [] => Some []
  | c :: text' =>
      match utf8_encode_char c, utf8_encode text' with
      | Some bs, Some rest => Some (bs ++ rest)
      | _, _ => None
      end
  end.

Definition is_cont (b : Z) : bool := (0x80 <=? b) && (b <=? 0xBF).

(** [data.decode("utf-8", errors="strict")]: [None] stands for
    [UnicodeDecodeError]. *)
Fixpoint utf8_decode (data : bytes) : option str :=
  match data with
  | [] => Some []
  | b0 :: r0 =>
      let z0 := byte_to_Z b0 in
      if z0 <? 0x80 then option_map (cons z0) (utf8_decode r0)
      else if z0 <? 0xC0 then None
      else if z0 <? 0xE0 then
        match r0 with
        | b1 :: r1 =>
            let z1 := byte_to_Z b1 in
            let c := (z0 - 0xC0) * 64 + (z1 - 0x80) in
            if is_cont z1 && (0x80 <=? c)
            then option_map (cons c) (utf8_decode r1)
            else None
        | _ => None
        end
      else if z0 <? 0xF0 then
        match r0 with
        | b1 :: b2 :: r2 =>
            let z1 := byte_to_Z b1 in
            let z2 := byte_to_Z b2 in
            let c := (z0 - 0xE0) * 4096 + (z1 - 0x80) * 64 + (z2 - 0x80) in
            if is_cont z1 && is_cont z2 && (0x800 <=? c)
               && negb (is_surrogate c)
            then option_map (cons c) (utf8_decode r2)
            else None
        | _ => None
        end
      else if z0 <? 0xF8 then
        match r0 with
        | b1 :: b2 :: b3 :: r3 =>
            let z1 := byte_to_Z b1 in
            let z2 := byte_to_Z b2 in
            let z3 := byte_to_Z b3 in
            let c := (z0 - 0xF0) * 262144 + (z1 - 0x80) * 4096
                     + (z2 - 0x80) * 64 + (z3 - 0x80) in
            if is_cont z1 && is_cont z2 && is_cont z3
               && (0x10000 <=? c) && (c <=? 0x10FFFF)
            then option_map (cons c) (utf8_decode r3)
            else None
        | _ => None
        end
      else None
  end.

(** ** models.py *)

Inductive Encoding :=
| UTF8_BOM | UTF8_NO_BOM | CP932 | UTF16_LE | UTF16_BE | BINARY | UNKNOWN.

(** [encoding.value] *)
Definition Encoding_value (e : Encoding) : string :=
  match e with
  | UTF8_BOM => "utf-8-bom"
  | UTF8_NO_BOM => "utf-8"
  | CP932 => "cp932"
  | UTF16_LE => "utf-16-le"
  | UTF16_BE => "utf-16-be"
  | BINARY => "binary"
  | UNKNOWN => "unknown"
  end.

(** [encoding.name] *)
Definition Encoding_name (e : Encoding) : string :=
  match e with
  | UTF8_BOM => "UTF8_BOM"
  | UTF8_NO_BOM => "UTF8_NO_BOM"
  | CP932 => "CP932"
  | UTF16_LE => "UTF16_LE"
  | UTF16_BE => "UTF16_BE"
  | BINARY => "BINARY"
  | UNKNOWN => "UNKNOWN"
  end.

#[global] Instance Encoding_eq_dec : EqDecision Encoding.
Proof. solve_decision. Defined.

Inductive FileStatus := CONVERTED | SKIPPED | ERROR | WARNING.

#[global] Instance FileStatus_eq_dec : EqDecision FileStatus.
Proof. solve_decision. Defined.

(** ** detector.py *)

Definition UTF8_BOM_bytes : bytes := [xef; xbb; xbf].
Definition UTF16_LE_BOM : bytes := [xff; xfe].
Definition UTF16_BE_BOM : bytes := [xfe; xff].

Section Detector.

(** [data.decode("cp932", errors="strict")]: the table-driven codec of the
    Python library, [None] for [UnicodeDecodeError]. *)
Variable cp932_decode : bytes -> option str.

Definition detect_encoding_from_bytes (data : bytes) : Encoding :=
  if startswith UTF8_BOM_bytes data then UTF8_BOM
  else if startswith UTF16_LE_BOM data then UTF16_LE
  else if startswith UTF16_BE_BOM data then UTF16_BE
  else if (length data =? 0)%nat then UTF8_NO_BOM
  else if contains_byte x00 data then BINARY
  else match utf8_decode data with
       | Some _ => UTF8_NO_BOM
       | None =>
           match cp932_decode data with
           | Some _ => CP932
           | None => UNKNOWN
           end
       end.

End Detector.

Definition should_convert (encoding : Encoding) (include_utf8_no_bom : bool)
  : bool :=
  if bool_decide (encoding = CP932) then true
  else if include_utf8_no_bom && bool_decide (encoding = UTF8_NO_BOM) then true
  else false.

Definition is_warning_encoding (encoding : Encoding) : bool :=
  bool_decide (encoding ∈ [UTF16_LE; UTF16_BE; BINARY; UNKNOWN]).

(** ** Exceptions

    The classes the package raises or catches. [PermissionError] and
    [FileNotFoundError] are the two subclasses of [OSError] that
    [convert_file] tells apart; [OSError] stands for every other one
    ([IsADirectoryError], [FileExistsError], [shutil.SameFileError], ...).
    [exn_msg] is [str(e)]. *)

Inductive exn_class :=
| PermissionError | FileNotFoundError | OSError
| ValueError | KeyError | TypeError | UnicodeError.

#[global] Instance exn_class_eq_dec : EqDecision exn_class.
Proof. solve_decision. Defined.

Record exn := Exn { exn_cls : exn_class; exn_msg : string }.

#[global] Instance exn_eq_dec : EqDecision exn.
Proof. solve_decision. Defined.

Inductive outcome (A : Type) : Type :=
| Return (a : A)
| Raise (e : exn).
Arguments Return {A} a.
Arguments Raise {A} e.

Definition outcome_bind {A B} (o : outcome A) (k : A -> outcome B)
  : outcome B :=
  match o with
  | Return a => k a
  | Raise e => Raise e
  end.

(** ** Strings *)

Fixpoint split_on (sep : ascii) (s : string) : list string :=
  match s with
  | EmptyString => [EmptyString]
  | String c s' =>
      if Ascii.eqb c sep then EmptyString :: split_on sep s'
      else match split_on sep s' with
           | [] => [String c EmptyString]
           | w :: ws => String c w :: ws
           end
  end.

Fixpoint join_with (sep : string) (ws : list string) : string :=
  match ws with
  | [] => ""
  | [w] => w
  | w :: ws' => w +:+ sep +:+ join_with sep ws'
  end.

Definition str_startswith (pre s : string) : bool := String.prefix pre s.

Definition str_endswith (suf s : string) : bool :=
  String.prefix (String.rev suf) (String.rev s).

(** [s.rstrip("/")] *)
Fixpoint lstrip_slash (s : string) : string :=
  match s with
  | String "/" s' => lstrip_slash s'
  | _ => s
  end.

Definition rstrip_slash (s : string) : string :=
  String.rev (lstrip_slash (String.rev s)).

(** [s.replace("\\", "/")] *)
Fixpoint backslash_to_slash (s : string) : string :=
  match s with
  | EmptyString => EmptyString
  | String c s' =>
      String (if Ascii.eqb c "\" then "/"%char else c) (backslash_to_slash s')
  end.

(** ** pathlib (POSIX flavour)

    A pure path is its anchor (absolute or not) and its components. The
    constructor drops empty and ["."] components and keeps [".."]. *)

Record Path := mkPath { is_absolute : bool; parts : list string }.

#[global] Instance Path_eq_dec : EqDecision Path.
Proof. solve_decision. Defined.

Definition keep_part (w : string) : bool :=
  negb (String.eqb w "") && negb (String.eqb w ".").

(** [Path(s)] *)
Definition Path_of_string (s : string) : Path :=
  mkPath (str_startswith "/" s)
    (filter (fun w => keep_part w = true) (split_on "/" s)).

(** [str(p)] *)
Definition Path_str (p : Path) : string :=
  if is_absolute p then "/" +:+ join_with "/" (parts p)
  else match parts p with
       | [] => "."
       | _ => join_with "/" (parts p)
       end.

(** [p / q]: an absolute right operand replaces the left one. *)
Definition joinpath (p q : Path) : Path :=
  if is_absolute q then q
  else mkPath (is_absolute p) (parts p ++ parts q).

(** [p / s] for a string [s] *)
Definition join_str (p : Path) (s : string) : Path :=
  joinpath p (Path_of_string s).

(** [xs] stripped of the leading [pre], when [pre] leads it *)
Fixpoint strip_prefix (pre xs : list string) : option (list string) :=
  match pre, xs with
  | [], _ => Some xs
  | _ :: _, [] => None
  | a :: pre', x :: xs' =>
      if String.eqb a x then strip_prefix pre' xs' else None
  end.

(** [p.relative_to(other)] *)
Definition relative_to (p other : Path) : outcome Path :=
  if Bool.eqb (is_absolute p) (is_absolute other) then
    match strip_prefix (parts other) (parts p) with
    | Some rest => Return (mkPath false rest)
    | None =>
        Raise (Exn ValueError
                 ("'" +:+ Path_str p +:+ "' is not in the subpath of '"
                  +:+ Path_str other +:+ "'"))
    end
  else
    Raise (Exn ValueError
             ("'" +:+ Path_str p +:+ "' is not in the subpath of '"
              +:+ Path_str other +:+ "'")).

(** [p.parent] *)
Definition Path_parent (p : Path) : Path :=
  mkPath (is_absolute p) (removelast (parts p)).

(** [p.name] *)
Definition Path_name (p : Path) : string := List.last (parts p) "".

(** Index of the last ["."] of [name], counted from the end; the suffix
    starts there. *)
Fixpoint find_dot (s : string) : option nat :=
  match s with
  | EmptyString => None
  | String c s' =>
      if Ascii.eqb c "." then Some O
      else option_map S (find_dot s')
  end.

(** [p.suffix]: [name[i:]] for [i = name.rfind(".")] when
    [0 < i < len(name) - 1], else the empty string. *)
Definition Path_suffix (p : Path) : string :=
  let name := Path_name p in
  let n := String.length name in
  match find_dot (String.rev name) with
  | Some j =>
      if (Nat.ltb 0 j && Nat.ltb j (n - 1))%nat
      then substring (n - 1 - j) (j + 1) name
      else ""
  | None => ""
  end.

(** Lexical normal form of an absolute component list: [".."] steps up, and
    stays at the root there. *)
Fixpoint normalize (acc : list string) (ps : list string) : list string :=
  match ps with
  | [] => acc
  | w :: ps' =>
      if String.eqb w ".." then normalize (removelast acc) ps'
      else normalize (acc ++ [w]) ps'
  end.

(** [p.resolve()] in a file system without symbolic links, with current
    directory [cwd]: the path is made absolute, then normalized. *)
Definition resolve_in (cwd : list string) (p : Path) : Path :=
  mkPath true
    (normalize [] ((if is_absolute p then [] else cwd) ++ parts p)).

(** ** The file system and the effect monad

    An in-memory POSIX-like store: a node per absolute normalized component
    list, a current directory, and the counter [tempfile] draws names from.
    A file carries its read permission, which is what makes [read_bytes] fail
    with [PermissionError]. The root always is a directory. Symbolic links
    are not modelled. *)

Inductive node :=
| File (readable : bool) (data : bytes)
| Dir.

Record FS := mkFS {
  cwd : list string;
  nodes : gmap (list string) node;
  tmp_seq : nat
}.

Definition set_nodes (fs : FS) (ns : gmap (list string) node) : FS :=
  mkFS (cwd fs) ns (tmp_seq fs).

Definition lookup_node (ns : gmap (list string) node) (k : list string)
  : option node :=
  match k with
  | [] => Some Dir
  | _ => ns !! k
  end.

Definition M (A : Type) : Type := FS -> outcome A * FS.

#[global] Instance M_ret : MRet M := fun A a fs => (Return a, fs).

#[global] Instance M_bind : MBind M := fun A B k m fs =>
  match m fs with
  | (Return a, fs') => k a fs'
  | (Raise e, fs') => (Raise e, fs')
  end.

Definition raise {A} (e : exn) : M A := fun fs => (Raise e, fs).

(** A pure computation that may raise *)
Definition lift {A} (o : outcome A) : M A := fun fs => (o, fs).

(** [try: m  except Exception as e: h e] *)
Definition try_except {A} (m : M A) (h : exn -> M A) : M A := fun fs =>
  match m fs with
  | (Return a, fs') => (Return a, fs')
  | (Raise e, fs') => h e fs'
  end.

Definition oserror (c : exn_class) (what : string) (k : list string) : exn :=
  Exn c (what +:+ ": '" +:+ Path_str (mkPath true k) +:+ "'").

(** The directory entries, as the scan reads them *)
Definition get_nodes : M (gmap (list string) node) := fun fs =>
  (Return (nodes fs), fs).

(** The node a path names *)
Definition key (fs : FS) (p : Path) : list string :=
  parts (resolve_in (cwd fs) p).

(** [p.resolve()] *)
Definition resolve (p : Path) : M Path := fun fs =>
  (Return (resolve_in (cwd fs) p), fs).

(** [p.exists()] *)
Definition Path_exists (p : Path) : M bool := fun fs =>
  (Return (bool_decide (is_Some (lookup_node (nodes fs) (key fs p)))), fs).

(** [p.read_bytes()] *)
Definition read_bytes (p : Path) : M bytes := fun fs =>
  let k := key fs p in
  match lookup_node (nodes fs) k with
  | None =>
      (Raise (oserror FileNotFoundError "[Errno 2] No such file or directory" k), fs)
  | Some Dir => (Raise (oserror OSError "[Errno 21] Is a directory" k), fs)
  | Some (File false _) =>
      (Raise (oserror PermissionError "[Errno 13] Permission denied" k), fs)
  | Some (File true data) => (Return data, fs)
  end.

Definition parent_is_dir (ns : gmap (list string) node) (k : list string)
  : bool :=
  match lookup_node ns (removelast k) with
  | Some Dir => true
  | _ => false
  end.

(** [os.makedirs]-like creation on the reversed component list: an existing
    directory is accepted, an existing file is an error, a missing node is
    created after its parent. *)
Fixpoint mkdir_rev (rk : list string) (ns : gmap (list string) node)
  : outcome (gmap (list string) node) :=
  match lookup_node ns (rev rk) with
  | Some Dir => Return ns
  | Some (File _ _) => Raise (oserror OSError "[Errno 17] File exists" (rev rk))
  | None =>
      match rk with
      | [] => Return ns
      | _ :: rparent =>
          match mkdir_rev rparent ns with
          | Return ns' => Return (<[rev rk := Dir]> ns')
          | Raise e => Raise e
          end
      end
  end.

(** [p.mkdir(parents=True, exist_ok=True)] *)
Definition mkdir_parents (p : Path) : M unit := fun fs =>
  match mkdir_rev (rev (key fs p)) (nodes fs) with
  | Return ns => (Return tt, set_nodes fs ns)
  | Raise e => (Raise e, fs)
  end.

(** Writing [data] at node [k], as [open(k, "wb")] followed by a write does:
    the parent has to be a directory, a directory cannot be opened, an
    existing file keeps its permission and a new one is readable. *)
Definition write_node (k : list string) (data : bytes) : M unit := fun fs =>
  match lookup_node (nodes fs) k with
  | Some Dir => (Raise (oserror OSError "[Errno 21] Is a directory" k), fs)
  | Some (File r _) => (Return tt, set_nodes fs (<[k := File r data]> (nodes fs)))
  | None =>
      if parent_is_dir (nodes fs) k
      then (Return tt, set_nodes fs (<[k := File true data]> (nodes fs)))
      else (Raise (oserror FileNotFoundError "[Errno 2] No such file or directory" k), fs)
  end.

(** [with p.open("w") as f: f.write(data)] *)
Definition write_bytes (p : Path) (data : bytes) : M unit := fun fs =>
  write_node (key fs p) data fs.

(** [shutil.copy2(src, dst)]: a directory [dst] receives the file under the
    source's base name; the copy carries the source's permission. *)
Definition copy2 (src dst : Path) : M unit := fun fs =>
  let ks := key fs src in
  let kd0 := key fs dst in
  let kd :=
    match lookup_node (nodes fs) kd0 with
    | Some Dir => kd0 ++ [List.last ks ""]
    | _ => kd0
    end in
  if bool_decide (ks = kd) then
    (Raise (oserror OSError "are the same file" ks), fs)
  else
    match read_bytes src fs with
    | (Raise e, fs') => (Raise e, fs')
    | (Return data, _) =>
        match lookup_node (nodes fs) kd with
        | Some Dir => (Raise (oserror OSError "[Errno 21] Is a directory" kd), fs)
        | _ =>
            if parent_is_dir (nodes fs) kd
            then (Return tt, set_nodes fs (<[kd := File true data]> (nodes fs)))
            else (Raise (oserror FileNotFoundError
                           "[Errno 2] No such file or directory" kd), fs)
        end
    end.

(** [tempfile.mkstemp(dir=dir, suffix=suffix)]: a new empty file in [dir],
    under a name drawn from the counter; the absolute path is returned. A
    name that is taken is reported as an error (the library retries with
    other names first). *)
Definition mkstemp (dir : Path) (suffix : string) : M Path := fun fs =>
  let kdir := key fs dir in
  let k := kdir ++ ["tmp" +:+ pretty (tmp_seq fs) +:+ suffix] in
  match lookup_node (nodes fs) kdir with
  | Some Dir =>
      match lookup_node (nodes fs) k with
      | None =>
          (Return (mkPath true k),
           mkFS (cwd fs) (<[k := File true []]> (nodes fs)) (S (tmp_seq fs)))
      | Some _ => (Raise (oserror OSError "[Errno 17] File exists" k), fs)
      end
  | Some (File _ _) => (Raise (oserror OSError "[Errno 20] Not a directory" kdir), fs)
  | None =>
      (Raise (oserror FileNotFoundError "[Errno 2] No such file or directory" kdir), fs)
  end.

(** [src.replace(dst)]: an atomic rename over [dst]. *)
Definition Path_replace (src dst : Path) : M unit := fun fs =>
  let ks := key fs src in
  let kd := key fs dst in
  match lookup_node (nodes fs) ks with
  | Some (File r data) =>
      match lookup_node (nodes fs) kd with
      | Some Dir => (Raise (oserror OSError "[Errno 21] Is a directory" kd), fs)
      | _ =>
          if parent_is_dir (nodes fs) kd
          then (Return tt, set_nodes fs (<[kd := File r data]> (delete ks (nodes fs))))
          else (Raise (oserror FileNotFoundError
                         "[Errno 2] No such file or directory" kd), fs)
      end
  | Some Dir => (Raise (oserror OSError "[Errno 21] Is a directory" ks), fs)
  | None =>
      (Raise (oserror FileNotFoundError "[Errno 2] No such file or directory" ks), fs)
  end.

(** [p.unlink()] *)
Definition Path_unlink (p : Path) : M unit := fun fs =>
  let k := key fs p in
  match lookup_node (nodes fs) k with
  | Some (File _ _) => (Return tt, set_nodes fs (delete k (nodes fs)))
  | Some Dir => (Raise (oserror OSError "[Errno 21] Is a directory" k), fs)
  | None =>
      (Raise (oserror FileNotFoundError "[Errno 2] No such file or directory" k), fs)
  end.

(** ** models.py: records *)

Module FileResult.
Record t := mk {
  path : Path;
  status : FileStatus;
  source_encoding : option Encoding;
  message : option string
}.
End FileResult.

Module ConversionConfig.
Record t := mk {
  target_path : Path;
  extensions : list string;
  exclude_patterns : list string;
  include_utf8_no_bom : bool;
  assume_cp932 : bool;
  strict : bool;
  execute : bool;
  backup_dir : Path;
  log_file : option Path;
  log_format : string;
  quiet : bool;
  verbose : bool
}.
End ConversionConfig.

Definition DEFAULT_EXCLUDE_PATTERNS : list string :=
  ["Library/"; "Temp/"; "obj/"; "bin/"; ".git/"; ".vs/"].

Module ConvertedFileInfo.
Record t := mk {
  relative_path : string;
  source_encoding : string;
  backup_path : string
}.
End ConvertedFileInfo.

(** The values [json] reads and writes. A [JDict] lists its items in
    insertion order; subscripting returns the first item under the key. *)
#[warnings="-register-all"]
Inductive json :=
| JNull
| JBool (b : bool)
| JNum (n : Z)
| JStr (s : string)
| JList (xs : list json)
| JDict (items : list (string * json)).

Fixpoint assoc_lookup (k : string) (items : list (string * json))
  : option json :=
  match items with
  | [] => None
  | (k', v) :: items' => if String.eqb k k' then Some v else assoc_lookup k items'
  end.

(** [data[k]] *)
Definition subscript (data : json) (k : string) : outcome json :=
  match data with
  | JDict items =>
      match assoc_lookup k items with
      | Some v => Return v
      | None => Raise (Exn KeyError ("'" +:+ k +:+ "'"))
      end
  | _ => Raise (Exn TypeError "indices must be integers")
  end.

(** The fields of the manifest records are typed as their annotations say;
    a document holding another kind of value at a field is reported as a
    [TypeError] here (Python would build the object and fail at its first
    use). *)
Definition as_str (v : json) : outcome string :=
  match v with
  | JStr s => Return s
  | _ => Raise (Exn TypeError "expected str")
  end.

Definition as_list (v : json) : outcome (list json) :=
  match v with
  | JList xs => Return xs
  | _ => Raise (Exn TypeError "expected list")
  end.

(** A list comprehension whose body may raise *)
Fixpoint map_outcome {A B} (f : A -> outcome B) (xs : list A)
  : outcome (list B) :=
  match xs with
  | [] => Return []
  | x :: xs' =>
      outcome_bind (f x) (fun y =>
      outcome_bind (map_outcome f xs') (fun ys => Return (y :: ys)))
  end.

Module RunManifest.
Record t := mk {
  run_id : string;
  timestamp : string;
  target_path : string;
  converted_files : list ConvertedFileInfo.t;
  config : json
}.

Definition file_to_dict (f : ConvertedFileInfo.t) : json :=
  JDict [("relative_path", JStr (ConvertedFileInfo.relative_path f));
         ("source_encoding", JStr (ConvertedFileInfo.source_encoding f));
         ("backup_path", JStr (ConvertedFileInfo.backup_path f))].

Definition to_dict (self : t) : json :=
  JDict [("run_id", JStr (run_id self));
         ("timestamp", JStr (timestamp self));
         ("target_path", JStr (target_path self));
         ("converted_files", JList (map file_to_dict (converted_files self)));
         ("config", config self)].

Definition file_from_dict (f : json) : outcome ConvertedFileInfo.t :=
  outcome_bind (outcome_bind (subscript f "relative_path") as_str) (fun rp =>
  outcome_bind (outcome_bind (subscript f "source_encoding") as_str) (fun se =>
  outcome_bind (outcome_bind (subscript f "backup_path") as_str) (fun bp =>
  Return (ConvertedFileInfo.mk rp se bp)))).

Definition from_dict (data : json) : outcome t :=
  outcome_bind (outcome_bind (subscript data "run_id") as_str) (fun rid =>
  outcome_bind (outcome_bind (subscript data "timestamp") as_str) (fun ts =>
  outcome_bind (outcome_bind (subscript data "target_path") as_str) (fun tp =>
  outcome_bind (outcome_bind (subscript data "converted_files") as_list) (fun fl =>
  outcome_bind (map_outcome file_from_dict fl) (fun files =>
  outcome_bind (subscript data "config") (fun cfg =>
  Return (mk rid ts tp files cfg))))))).
End RunManifest.

Module ConversionSummary.
Record t := mk {
  total_files : Z;
  converted : Z;
  skipped : Z;
  warnings : Z;
  errors : Z;
  cp932_count : Z;
  utf8_bom_count : Z;
  utf8_no_bom_count : Z;
  utf16_count : Z;
  binary_count : Z;
  unknown_count : Z
}.

(** [ConversionSummary()] *)
Definition init : t := mk 0 0 0 0 0 0 0 0 0 0 0.
End ConversionSummary.

(** ** backup.py *)

(** [backup_dir / run_id / relative_path] *)
Definition get_backup_path (file_path target_root backup_dir : Path)
  (run_id : string) : outcome Path :=
  outcome_bind (relative_to file_path target_root) (fun relative_path =>
  Return (joinpath (join_str backup_dir run_id) relative_path)).

Definition create_backup (file_path target_root backup_dir : Path)
  (run_id : string) : M Path :=
  backup_path ← lift (get_backup_path file_path target_root backup_dir run_id);
  mkdir_parents (Path_parent backup_path);;
  copy2 file_path backup_path;;
  mret backup_path.

Definition get_manifest_path (backup_dir : Path) (run_id : string) : Path :=
  join_str (join_str backup_dir run_id) "manifest.json".

(** The [ValueError] that [_validate_path_within] raises *)
Definition traversal_error (description : string) (path root_resolved : Path)
  : exn :=
  Exn ValueError
    ("Path traversal detected in " +:+ description +:+ ": "
     +:+ Path_str path +:+ " is outside " +:+ Path_str root_resolved).

Section Manifest.

(** [json.dump(obj, f, ensure_ascii=False, indent=2)] into a UTF-8 text
    file, and [json.load(f)] from one: the bytes written for a document,
    and the document read from bytes ([json.JSONDecodeError] is a
    [ValueError]). *)
Variable json_dump : json -> bytes.
Variable json_load : bytes -> outcome json.

Definition save_manifest (manifest : RunManifest.t) (backup_dir : Path)
  : M Path :=
  let manifest_path :=
    get_manifest_path backup_dir (RunManifest.run_id manifest) in
  mkdir_parents (Path_parent manifest_path);;
  write_bytes manifest_path (json_dump (RunManifest.to_dict manifest));;
  mret manifest_path.

Definition load_manifest (backup_dir : Path) (run_id : string)
  : M (option RunManifest.t) :=
  let manifest_path := get_manifest_path backup_dir run_id in
  present ← Path_exists manifest_path;
  if negb present then mret None
  else
    raw ← read_bytes manifest_path;
    data ← lift (json_load raw);
    manifest ← lift (RunManifest.from_dict data);
    mret (Some manifest).

(** [_validate_path_within(path, root, description)] *)
Definition _validate_path_within (path root : Path) (description : string)
  : M Path :=
  resolved ← resolve path;
  root_resolved ← resolve root;
  try_except
    (lift (relative_to resolved root_resolved);; mret resolved)
    (fun e =>
       if bool_decide (exn_cls e = ValueError) then
         raise (traversal_error description path root_resolved)
       else raise e).

(** The body of the [for file_info in manifest.converted_files] loop of
    [restore_backup], with [restored_files] as accumulator. *)
Fixpoint restore_loop (target_root backup_root : Path)
  (files : list ConvertedFileInfo.t) (restored_files : list Path)
  : M (list Path) :=
  match files with
  | [] => mret restored_files
  | file_info :: files' =>
      backup_path ← _validate_path_within
        (join_str backup_root (ConvertedFileInfo.relative_path file_info))
        backup_root "backup path";
      target_path ← _validate_path_within
        (join_str target_root (ConvertedFileInfo.relative_path file_info))
        target_root "target path";
      present ← Path_exists backup_path;
      if negb present then
        raise (Exn OSError ("Backup file not found: " +:+ Path_str backup_path))
      else
        copy2 backup_path target_path;;
        restore_loop target_root backup_root files'
          (restored_files ++ [target_path])
  end.

Definition restore_backup (backup_dir : Path) (run_id : string)
  : M (list Path) :=
  manifest ← load_manifest backup_dir run_id;
  match manifest with
  | None => raise (Exn ValueError ("Backup not found: " +:+ run_id))
  | Some manifest =>
      let target_root := Path_of_string (RunManifest.target_path manifest) in
      let backup_root := join_str backup_dir run_id in
      restore_loop target_root backup_root
        (RunManifest.converted_files manifest) []
  end.

End Manifest.

(** ** converter.py *)

Section Converter.

Variable cp932_decode : bytes -> option str.

(** [detect_encoding(file_path)] of detector.py *)
Definition detect_encoding (file_path : Path) : M Encoding :=
  data ← read_bytes file_path;
  mret (detect_encoding_from_bytes cp932_decode data).

Definition decode_with (codec : bytes -> option str) (name : string)
  (data : bytes) : outcome str :=
  match codec data with
  | Some text => Return text
  | None =>
      Raise (Exn UnicodeError
               ("'" +:+ name +:+ "' codec can't decode bytes"))
  end.

Definition read_file_content (file_path : Path) (encoding : Encoding)
  : M (str * bytes) :=
  data ← read_bytes file_path;
  text ← lift
    (if bool_decide (encoding = UTF8_BOM) then
       decode_with utf8_decode "utf-8" (drop 3 data)
     else if bool_decide (encoding = CP932) then
       decode_with cp932_decode "cp932" data
     else if bool_decide (encoding = UTF8_NO_BOM) then
       decode_with utf8_decode "utf-8" data
     else
       Raise (Exn ValueError
                ("Cannot read content with encoding: Encoding."
                 +:+ Encoding_name encoding)));
  mret (text, data).

Definition convert_to_utf8_bom (text : str) (original_data : bytes)
  : outcome bytes :=
  match utf8_encode text with
  | Some encoded => Return (UTF8_BOM_bytes ++ encoded)
  | None =>
      Raise (Exn UnicodeError "'utf-8' codec can't encode characters")
  end.

Definition atomic_write (file_path : Path) (content : bytes) : M unit :=
  temp_path ← mkstemp (Path_parent file_path) ".tmp";
  try_except
    (write_bytes temp_path content;;
     Path_replace temp_path file_path)
    (fun e =>
       present ← Path_exists temp_path;
       (if present : bool then Path_unlink temp_path else mret tt);;
       raise e).

(** The [try] block of [convert_file] *)
Definition convert_file_try (file_path : Path) (config : ConversionConfig.t)
  (run_id : string) : M (FileResult.t * option ConvertedFileInfo.t) :=
  encoding ← detect_encoding file_path;
  if is_warning_encoding encoding then
    mret (FileResult.mk file_path WARNING (Some encoding)
            (Some ("Skipped: " +:+ Encoding_value encoding)),
          None)
  else if negb (should_convert encoding
                  (ConversionConfig.include_utf8_no_bom config)) then
    mret (FileResult.mk file_path SKIPPED (Some encoding)
            (Some ("Already " +:+ Encoding_value encoding)),
          None)
  else if negb (ConversionConfig.execute config) then
    mret (FileResult.mk file_path CONVERTED (Some encoding)
            (Some "Would convert (dry run)"),
          None)
  else
    '(text, original_data) ← read_file_content file_path encoding;
    target_root ← resolve (ConversionConfig.target_path config);
    backup_root ← resolve (ConversionConfig.backup_dir config);
    backup_path ← create_backup file_path target_root backup_root run_id;
    converted_data ← lift (convert_to_utf8_bom text original_data);
    atomic_write file_path converted_data;;
    target_root' ← resolve (ConversionConfig.target_path config);
    relative_path ← lift (relative_to file_path target_root');
    backup_root' ← resolve (ConversionConfig.backup_dir config);
    backup_rel ← lift (relative_to backup_path backup_root');
    let converted_info :=
      ConvertedFileInfo.mk
        (backslash_to_slash (Path_str relative_path))
        (Encoding_value encoding)
        (backslash_to_slash (Path_str backup_rel)) in
    mret (FileResult.mk file_path CONVERTED (Some encoding)
            (Some "Converted successfully"),
          Some converted_info).

(** [convert_file]: the [try] block under its three [except] clauses. *)
Definition convert_file (file_path : Path) (config : ConversionConfig.t)
  (run_id : string) : M (FileResult.t * option ConvertedFileInfo.t) :=
  try_except (convert_file_try file_path config run_id)
    (fun e =>
       if bool_decide (exn_cls e = PermissionError) then
         mret (FileResult.mk file_path ERROR None (Some "Permission denied"),
               None)
       else if bool_decide (exn_cls e = FileNotFoundError) then
         mret (FileResult.mk file_path ERROR None (Some "File not found"),
               None)
       else
         mret (FileResult.mk file_path ERROR None (Some (exn_msg e)),
               None)).

End Converter.

Definition update_summary (summary : ConversionSummary.t)
  (result : FileResult.t) : ConversionSummary.t :=
  let 'ConversionSummary.mk total conv skip warn err cp u8b u8 u16 bin unk :=
    summary in
  let total := total + 1 in
  let st := FileResult.status result in
  let conv := if bool_decide (st = CONVERTED) then conv + 1 else conv in
  let skip :=
    if bool_decide (st = CONVERTED) then skip
    else if bool_decide (st = SKIPPED) then skip + 1 else skip in
  let warn :=
    if bool_decide (st = CONVERTED) then warn
    else if bool_decide (st = SKIPPED) then warn
    else if bool_decide (st = WARNING) then warn + 1 else warn in
  let err :=
    if bool_decide (st = CONVERTED) then err
    else if bool_decide (st = SKIPPED) then err
    else if bool_decide (st = WARNING) then err
    else if bool_decide (st = ERROR) then err + 1 else err in
  match FileResult.source_encoding result with
  | None => ConversionSummary.mk total conv skip warn err cp u8b u8 u16 bin unk
  | Some enc =>
      if bool_decide (enc = CP932) then
        ConversionSummary.mk total conv skip warn err (cp + 1) u8b u8 u16 bin unk
      else if bool_decide (enc = UTF8_BOM) then
        ConversionSummary.mk total conv skip warn err cp (u8b + 1) u8 u16 bin unk
      else if bool_decide (enc = UTF8_NO_BOM) then
        ConversionSummary.mk total conv skip warn err cp u8b (u8 + 1) u16 bin unk
      else if bool_decide (enc ∈ [UTF16_LE; UTF16_BE]) then
        ConversionSummary.mk total conv skip warn err cp u8b u8 (u16 + 1) bin unk
      else if bool_decide (enc = BINARY) then
        ConversionSummary.mk total conv skip warn err cp u8b u8 u16 (bin + 1) unk
      else if bool_decide (enc = UNKNOWN) then
        ConversionSummary.mk total conv skip warn err cp u8b u8 u16 bin (unk + 1)
      else
        ConversionSummary.mk total conv skip warn err cp u8b u8 u16 bin unk
  end.

(** ** scanner.py *)

(** One step of [os.walk]: the directory, its sub-directories that will be
    visited and its other entries. *)
Definition walk_step : Type := list string * list string * list string.

(** [os.scandir(top)], split as [os.walk] splits it. *)
Definition listdir (ns : gmap (list string) node) (top : list string)
  : list string * list string :=
  let entries :=
    omap (fun kn : list string * node =>
            match strip_prefix top (fst kn) with
            | Some [name] => Some (name, snd kn)
            | _ => None
            end) (map_to_list ns) in
  (omap (fun e : string * node =>
           match snd e with Dir => Some (fst e) | File _ _ => None end) entries,
   omap (fun e : string * node =>
           match snd e with Dir => None | File _ _ => Some (fst e) end) entries).

(** The length of the longest node name: no directory lies deeper. *)
Definition max_depth (ns : gmap (list string) node) : nat :=
  foldr (fun kn acc => Nat.max (length (fst kn)) acc) O (map_to_list ns).

(** [os.walk(top)], top-down. The caller of the generator may edit the list
    of sub-directories before the walk goes on: [prune] is that edit. A path
    that is not a directory yields nothing. [fuel] bounds the depth. *)
Fixpoint os_walk (fuel : nat) (ns : gmap (list string) node)
  (prune : list string -> list string) (top : list string)
  : list walk_step :=
  match fuel with
  | O => []
  | S fuel' =>
      match lookup_node ns top with
      | Some Dir =>
          let '(dirs, files) := listdir ns top in
          let dirs := prune dirs in
          (top, dirs, files)
            :: flat_map (fun d => os_walk fuel' ns prune (top ++ [d])) dirs
      | _ => []
      end
  end.

Section Scanner.

(** [fnmatch.fnmatch(name, pattern)] and [s.lower()] *)
Variable fnmatch : string -> string -> bool.
Variable lower : string -> string.

Fixpoint should_exclude_dir (dir_name : string) (patterns : list string)
  : bool :=
  match patterns with
  | [] => false
  | pattern :: patterns' =>
      if str_endswith "/" pattern then
        let dir_pattern := rstrip_slash pattern in
        if fnmatch dir_name dir_pattern then true
        else should_exclude_dir dir_name patterns'
      else should_exclude_dir dir_name patterns'
  end.

(** The [for pattern in patterns] loop of [matches_file_exclude_pattern] *)
Fixpoint file_pattern_loop (name relative_str : string)
  (patterns : list string) : bool :=
  match patterns with
  | [] => false
  | pattern :: patterns' =>
      if str_endswith "/" pattern then
        file_pattern_loop name relative_str patterns'
      else if fnmatch name pattern then true
      else if fnmatch relative_str pattern then true
      else file_pattern_loop name relative_str patterns'
  end.

Definition matches_file_exclude_pattern (file_path base_path : Path)
  (patterns : list string) : bool :=
  match relative_to file_path base_path with
  | Raise _ => false
  | Return relative =>
      let relative_str := backslash_to_slash (Path_str relative) in
      file_pattern_loop (Path_name relative) relative_str patterns
  end.

(** The body of the [for root, dirs, files in os.walk(target_path)] loop,
    over the directory entries [ns]. *)
Definition scan_walk (ns : gmap (list string) node) (target_path : Path)
  (exclude_patterns extensions : list string) : list Path :=
  flat_map
    (fun step : walk_step =>
       let root_path := mkPath true (fst (fst step)) in
       omap (fun file_name =>
               let file_path := join_str root_path file_name in
               if negb (bool_decide
                          (lower (Path_suffix file_path) ∈ extensions))
               then None
               else if matches_file_exclude_pattern file_path target_path
                         exclude_patterns
               then None
               else Some file_path)
            (snd step))
    (os_walk (S (max_depth ns)) ns
       (filter (fun d => should_exclude_dir d exclude_patterns = false))
       (parts target_path)).

(** The generator [scan_files], run to its end on the file system as it
    is when the scan starts. *)
Definition scan_files (config : ConversionConfig.t) : M (list Path) :=
  target_path ← resolve (ConversionConfig.target_path config);
  let exclude_patterns :=
    DEFAULT_EXCLUDE_PATTERNS ++ ConversionConfig.exclude_patterns config in
  let extensions :=
    map (fun ext => if str_startswith "." ext then lower ext
                    else "." +:+ lower ext)
        (ConversionConfig.extensions config) in
  ns ← get_nodes;
  mret (scan_walk ns target_path exclude_patterns extensions).

End Scanner.

(** ** cli.py: the conversion run *)

Definition EXIT_SUCCESS : Z := 0.
Definition EXIT_PARTIAL_ERROR : Z := 1.
Definition EXIT_FATAL_ERROR : Z := 2.
Definition EXIT_USER_INTERRUPT : Z := 3.

Section Run.

Variable cp932_decode : bytes -> option str.
Variable json_dump : json -> bytes.
Variable fnmatch : string -> string -> bool.
Variable lower : string -> string.

(** The [for file_path in scan_files(config)] loop of [run_conversion].
    [interrupted i] is the value of the flag [_interrupted] when the loop
    reaches its [i]-th file; [None] is the early [return
    EXIT_USER_INTERRUPT]. Logging is left out. *)
Fixpoint conversion_loop (interrupted : nat -> bool) (i : nat)
  (paths : list Path) (config : ConversionConfig.t) (run_id : string)
  (summary : ConversionSummary.t)
  (converted_files : list ConvertedFileInfo.t)
  : M (option (ConversionSummary.t * list ConvertedFileInfo.t)) :=
  match paths with
  | [] => mret (Some (summary, converted_files))
  | file_path :: paths' =>
      if interrupted i then mret None
      else
        '(result, converted_info) ←
          convert_file cp932_decode file_path config run_id;
        let summary := update_summary summary result in
        let converted_files :=
          match converted_info with
          | Some info => converted_files ++ [info]
          | None => converted_files
          end in
        conversion_loop interrupted (S i) paths' config run_id summary
          converted_files
  end.

(** [run_conversion(config)], for the run id and the time stamp the run
    draws. The paths are scanned before the loop starts. *)
Definition run_conversion (config : ConversionConfig.t) (run_id : string)
  (now : string) (interrupted : nat -> bool) : M Z :=
  paths ← scan_files fnmatch lower config;
  r ← conversion_loop interrupted O paths config run_id
        ConversionSummary.init [];
  match r with
  | None => mret EXIT_USER_INTERRUPT
  | Some (summary, converted_files) =>
      (if ConversionConfig.execute config
          && negb (bool_decide (converted_files = []))
       then
         target_root ← resolve (ConversionConfig.target_path config);
         let manifest :=
           RunManifest.mk run_id now (Path_str target_root) converted_files
             (JDict
                [("extensions",
                  JList (map JStr (ConversionConfig.extensions config)));
                 ("include_utf8_no_bom",
                  JBool (ConversionConfig.include_utf8_no_bom config));
                 ("exclude_patterns",
                  JList (map JStr (ConversionConfig.exclude_patterns config)))])
         in
         save_manifest json_dump manifest
           (ConversionConfig.backup_dir config);;
         mret tt
       else mret tt);;
      mret (if ConversionSummary.errors summary >? 0
            then EXIT_PARTIAL_ERROR else EXIT_SUCCESS)
  end.

End Run.

(** ** Instances of the library functions

    Executable stand-ins for the section variables, used to run the model on
    concrete inputs. *)

(** The single-byte rows of CP932: ASCII, and the half-width katakana
    [0xA1..0xDF] at [U+FF61..U+FF9F]. The double-byte rows need the code
    page's table; this decoder refuses their lead bytes. *)
Fixpoint cp932_single_byte (data : bytes) : option str :=
  match data with
  | [] => Some []
  | b :: data' =>
      let z := byte_to_Z b in
      if z <? 0x80 then option_map (cons z) (cp932_single_byte data')
      else if (0xA1 <=? z) && (z <=? 0xDF)
      then option_map (cons (0xFEC0 + z)) (cp932_single_byte data')
      else None
  end.

(** [fnmatch] for patterns made of literal characters, [*] and [?]. *)
Fixpoint glob_match (pattern : string) : string -> bool :=
  match pattern with
  | EmptyString => fun name => String.eqb name ""
  | String c pattern' =>
      if Ascii.eqb c "*" then
        fix star (name : string) : bool :=
          glob_match pattern' name
          || match name with
             | EmptyString => false
             | String _ name' => star name'
             end
      else
        fun name =>
          match name with
          | EmptyString => false
          | String d name' =>
              (Ascii.eqb c "?" || Ascii.eqb c d) && glob_match pattern' name'
          end
  end.

Definition fnmatch_glob (name pattern : string) : bool :=
  glob_match pattern name.

(** [str.lower] on ASCII letters *)
Definition ascii_lower (c : ascii) : ascii :=
  let n := nat_of_ascii c in
  if (Nat.leb 65 n && Nat.leb n 90)%nat then ascii_of_nat (n + 32) else c.

Fixpoint lower_ascii (s : string) : string :=
  match s with
  | EmptyString => EmptyString
  | String c s' => String (ascii_lower c) (lower_ascii s')
  end.

(** A compact JSON writer and reader. Strings escape the quote and the
    backslash only. *)
Fixpoint json_quote_body (s : string) : string :=
  match s with
  | EmptyString => EmptyString
  | String c s' =>
      if Ascii.eqb c "034" || Ascii.eqb c "\"
      then String "\" (String c (json_quote_body s'))
      else String c (json_quote_body s')
  end.

Definition json_quote (s : string) : string :=
  String "034" (json_quote_body s +:+ String "034" EmptyString).

Fixpoint json_print (v : json) : string :=
  match v with
  | JNull => "null"
  | JBool true => "true"
  | JBool false => "false"
  | JNum n => pretty n
  | JStr s => json_quote s
  | JList xs => "[" +:+ join_with "," (map json_print xs) +:+ "]"
  | JDict items =>
      "{" +:+ join_with ","
                (map (fun kv : string * json =>
                        json_quote (fst kv) +:+ ":" +:+ json_print (snd kv))
                     items)
      +:+ "}"
  end.

(** The characters of a quoted string up to its closing quote, and the rest
    of the input. *)
Fixpoint json_read_string (s : string) : option (string * string) :=
  match s with
  | EmptyString => None
  | String c s' =>
      if Ascii.eqb c "034" then Some (EmptyString, s')
      else if Ascii.eqb c "\" then
        match s' with
        | String d s'' =>
            match json_read_string s'' with
            | Some (w, rest) => Some (String d w, rest)
            | None => None
            end
        | EmptyString => None
        end
      else
        match json_read_string s' with
        | Some (w, rest) => Some (String c w, rest)
        | None => None
        end
  end.

Definition digit_of (c : ascii) : option Z :=
  let n := nat_of_ascii c in
  if (Nat.leb 48 n && Nat.leb n 57)%nat then Some (Z.of_nat n - 48) else None.

Fixpoint json_read_digits (acc : Z) (s : string) : Z * string :=
  match s with
  | EmptyString => (acc, s)
  | String c s' =>
      match digit_of c with
      | Some d => json_read_digits (acc * 10 + d) s'
      | None => (acc, s)
      end
  end.

Fixpoint json_read (fuel : nat) (s : string) : option (json * string) :=
  match fuel with
  | O => None
  | S fuel' =>
      let read_items :=
        fix read_items (n : nat) (s : string) (acc : list json)
          : option (list json * string) :=
          match n with
          | O => None
          | S n' =>
              match json_read fuel' s with
              | Some (v, String "," rest) => read_items n' rest (acc ++ [v])
              | Some (v, String "]" rest) => Some (acc ++ [v], rest)
              | _ => None
              end
          end in
      let read_pairs :=
        fix read_pairs (n : nat) (s : string) (acc : list (string * json))
          : option (list (string * json) * string) :=
          match n with
          | O => None
          | S n' =>
              match s with
              | String "034" s1 =>
                  match json_read_string s1 with
                  | Some (k, String ":" s2) =>
                      match json_read fuel' s2 with
                      | Some (v, String "," rest) =>
                          read_pairs n' rest (acc ++ [(k, v)])
                      | Some (v, String "}" rest) => Some (acc ++ [(k, v)], rest)
                      | _ => None
                      end
                  | _ => None
                  end
              | _ => None
              end
          end in
      match s with
      | String "n" (String "u" (String "l" (String "l" rest))) =>
          Some (JNull, rest)
      | String "t" (String "r" (String "u" (String "e" rest))) =>
          Some (JBool true, rest)
      | String "f" (String "a" (String "l" (String "s" (String "e" rest)))) =>
          Some (JBool false, rest)
      | String "034" s1 =>
          match json_read_string s1 with
          | Some (w, rest) => Some (JStr w, rest)
          | None => None
          end
      | String "[" (String "]" rest) => Some (JList [], rest)
      | String "[" s1 =>
          match read_items (String.length s1) s1 [] with
          | Some (xs, rest) => Some (JList xs, rest)
          | None => None
          end
      | String "{" (String "}" rest) => Some (JDict [], rest)
      | String "{" s1 =>
          match read_pairs (String.length s1) s1 [] with
          | Some (items, rest) => Some (JDict items, rest)
          | None => None
          end
      | String "-" s1 =>
          match s1 with
          | String c _ =>
              match digit_of c with
              | Some _ =>
                  let '(n, rest) := json_read_digits 0 s1 in Some (JNum (- n), rest)
              | None => None
              end
          | EmptyString => None
          end
      | String c _ =>
          match digit_of c with
          | Some _ => let '(n, rest) := json_read_digits 0 s in Some (JNum n, rest)
          | None => None
          end
      | EmptyString => None
      end
  end.

Definition json_dump_compact (v : json) : bytes :=
  list_byte_of_string (json_print v).

Definition json_load_compact (raw : bytes) : outcome json :=
  let s := string_of_list_byte raw in
  match json_read (S (String.length s)) s with
  | Some (v, EmptyString) => Return v
  | _ => Raise (Exn ValueError "Expecting value")
  end.

(** ** Sample inputs

    A small project tree and a backup tree, used to run the model. [a.cs]
    holds the CP932 bytes of a half-width katakana letter and an ASCII
    letter, [b.cs] starts with the UTF-8 byte-order mark, [locked.cs] cannot
    be read. *)

Definition sample_nodes : gmap (list string) node :=
  list_to_map
    [(["proj"], Dir);
     (["proj"; "a.cs"], File true [xb1; x41]);
     (["proj"; "b.cs"], File true [xef; xbb; xbf; x41]);
     (["proj"; "locked.cs"], File false [xb1]);
     (["proj"; "sub"], Dir);
     (["backup"], Dir)].

Definition sample_fs : FS := mkFS ["home"] sample_nodes 0.

Definition sample_config (execute : bool) : ConversionConfig.t :=
  ConversionConfig.mk (Path_of_string "/proj") [".cs"] [] false false false
    execute (Path_of_string "/backup") None "text" false false.

(** A backup tree with two manifests. Run [run1] lists [a.cs], whose backup
    is present, and then an entry that climbs out of both roots; run [run2]
    lists a file whose backup is missing, and then the same climbing
    entry. *)

Definition climbing_entry : ConvertedFileInfo.t :=
  ConvertedFileInfo.mk "../../etc/passwd" "cp932" "../../etc/passwd".

Definition restore_config : json :=
  JDict [("extensions", JList [JStr ".cs"]);
         ("include_utf8_no_bom", JBool false);
         ("exclude_patterns", JList [])].

Definition restore_manifest1 : RunManifest.t :=
  RunManifest.mk "run1" "2026-01-27T12:00:00" "/proj"
    [ConvertedFileInfo.mk "a.cs" "cp932" "run1/a.cs"; climbing_entry]
    restore_config.

Definition restore_manifest2 : RunManifest.t :=
  RunManifest.mk "run2" "2026-01-27T13:00:00" "/proj"
    [ConvertedFileInfo.mk "gone.cs" "cp932" "run2/gone.cs"; climbing_entry]
    restore_config.

Definition restore_fs : FS :=
  mkFS ["home"]
    (list_to_map
       [(["proj"], Dir);
        (["proj"; "a.cs"], File true [xef; xbb; xbf; xef; xbd; xb1; x41]);
        (["etc"], Dir);
        (["etc"; "passwd"], File true [x72; x6f; x6f; x74]);
        (["backup"], Dir);
        (["backup"; "run1"], Dir);
        (["backup"; "run1"; "a.cs"], File true [xb1; x41]);
        (["backup"; "run1"; "manifest.json"],
         File true (json_dump_compact (RunManifest.to_dict restore_manifest1)));
        (["backup"; "run2"], Dir);
        (["backup"; "run2"; "manifest.json"],
         File true (json_dump_compact (RunManifest.to_dict restore_manifest2)))])
    0.

(** ** Vocabulary of the statements *)





(** The sum of the four status counters *)
Definition status_total (s : ConversionSummary.t) : Z :=
  ConversionSummary.converted s + ConversionSummary.skipped s
  + ConversionSummary.warnings s + ConversionSummary.errors s.

(** The pair [convert_file] returns from an [except] clause *)
Definition error_result (file_path : Path) (msg : string)
  : FileResult.t * option ConvertedFileInfo.t :=
  (FileResult.mk file_path ERROR None (Some msg), None).

(** Two configurations that differ at most in [assume_cp932] and [strict] *)
Definition same_but_flags (c1 c2 : ConversionConfig.t) : Prop :=
  ConversionConfig.target_path c1 = ConversionConfig.target_path c2
  /\ ConversionConfig.extensions c1 = ConversionConfig.extensions c2
  /\ ConversionConfig.exclude_patterns c1 = ConversionConfig.exclude_patterns c2
  /\ ConversionConfig.include_utf8_no_bom c1
     = ConversionConfig.include_utf8_no_bom c2
  /\ ConversionConfig.execute c1 = ConversionConfig.execute c2
  /\ ConversionConfig.backup_dir c1 = ConversionConfig.backup_dir c2
  /\ ConversionConfig.log_file c1 = ConversionConfig.log_file c2
  /\ ConversionConfig.log_format c1 = ConversionConfig.log_format c2
  /\ ConversionConfig.quiet c1 = ConversionConfig.quiet c2
  /\ ConversionConfig.verbose c1 = ConversionConfig.verbose c2.

(** The buffer starts with [pre]. *)
Definition has_prefix (pre data : bytes) : Prop :=
  exists rest, data = pre ++ rest.


(** A strictly valid UTF-8 buffer is the encoding of a text; a strictly
    valid CP932 buffer is one the CP932 codec decodes. *)
Definition utf8_valid (data : bytes) : Prop :=
  exists text, utf8_encode text = Some data.

Definition cp932_valid (cp932_decode : bytes -> option str) (data : bytes)
  : Prop :=
  exists text, cp932_decode data = Some text.

(** None of the three byte-order marks leads the buffer. *)
Definition no_bom (data : bytes) : Prop :=
  ~ has_prefix UTF8_BOM_bytes data
  /\ ~ has_prefix UTF16_LE_BOM data
  /\ ~ has_prefix UTF16_BE_BOM data.

(** The detection rules as the specification words them: the rules are tried
    in order, and a rule applies only when no earlier one does. *)
Inductive detect_rule (cp932_decode : bytes -> option str)
  : bytes -> Encoding -> Prop :=
| rule_utf8_bom data :
    has_prefix UTF8_BOM_bytes data ->
    detect_rule cp932_decode data UTF8_BOM
| rule_utf16_le data :
    ~ has_prefix UTF8_BOM_bytes data ->
    has_prefix UTF16_LE_BOM data ->
    detect_rule cp932_decode data UTF16_LE
| rule_utf16_be data :
    ~ has_prefix UTF8_BOM_bytes data ->
    ~ has_prefix UTF16_LE_BOM data ->
    has_prefix UTF16_BE_BOM data ->
    detect_rule cp932_decode data UTF16_BE
| rule_empty data :
    no_bom data -> data = [] ->
    detect_rule cp932_decode data UTF8_NO_BOM
| rule_binary data :
    no_bom data -> data <> [] -> In x00 data ->
    detect_rule cp932_decode data BINARY
| rule_utf8 data :
    no_bom data -> data <> [] -> ~ In x00 data ->
    utf8_valid data ->
    detect_rule cp932_decode data UTF8_NO_BOM
| rule_cp932 data :
    no_bom data -> data <> [] -> ~ In x00 data ->
    ~ utf8_valid data ->
    cp932_valid cp932_decode data ->
    detect_rule cp932_decode data CP932
| rule_unknown data :
    no_bom data -> data <> [] -> ~ In x00 data ->
    ~ utf8_valid data ->
    ~ cp932_valid cp932_decode data ->
    detect_rule cp932_decode data UNKNOWN.

(** * Properties *)

(** ** Bytes *)

Lemma byte_to_Z_range (b : byte) : 0 <= byte_to_Z b < 256.
Proof.
  unfold byte_to_Z. pose proof (Byte.to_N_bounded b). lia.
Qed.

Lemma byte_to_of_Z (z : Z) : 0 <= z < 256 -> byte_to_Z (byte_of_Z z) = z.
Proof.
  intros Hz. unfold byte_to_Z, byte_of_Z.
  destruct (Byte.of_N (Z.to_N z)) as [b|] eqn:E.
  - apply Byte.to_of_N in E. rewrite E. lia.
  - apply Byte.of_N_None_iff in E. lia.
Qed.

Lemma byte_to_Z_inj (a b : byte) : byte_to_Z a = byte_to_Z b -> a = b.
Proof.
  unfold byte_to_Z. intros H.
  assert (E : Byte.to_N a = Byte.to_N b) by lia.
  pose proof (Byte.of_to_N a) as Ha. pose proof (Byte.of_to_N b) as Hb.
  congruence.
Qed.

Lemma byte_eqb_eq (a b : byte) : byte_eqb a b = true <-> a = b.
Proof.
  unfold byte_eqb. rewrite Z.eqb_eq. split.
  - apply byte_to_Z_inj.
  - now intros ->.
Qed.

Lemma startswith_spec (pre data : bytes) :
  startswith pre data = true <-> has_prefix pre data.
Proof.
  revert data. induction pre as [|p pre IH]; intros data; simpl.
  - split; [intros _; now exists data | trivial].
  - destruct data as [|d data]; simpl.
    + split; [discriminate | intros [rest H]; discriminate].
    + rewrite andb_true_iff, byte_eqb_eq, IH. split.
      * intros [-> [rest ->]]. now exists rest.
      * intros [rest H]. injection H as -> ->. split; [reflexivity | now exists rest].
Qed.

Lemma startswith_false (pre data : bytes) :
  startswith pre data = false <-> ~ has_prefix pre data.
Proof.
  rewrite <- startswith_spec. destruct (startswith pre data); split; congruence.
Qed.

Lemma contains_byte_spec (b : byte) (data : bytes) :
  contains_byte b data = true <-> In b data.
Proof.
  induction data as [|d data IH]; simpl.
  - split; [discriminate | tauto].
  - rewrite orb_true_iff, byte_eqb_eq, IH. split; intros [H|H]; auto.
Qed.

Lemma contains_byte_false (b : byte) (data : bytes) :
  contains_byte b data = false <-> ~ In b data.
Proof.
  rewrite <- contains_byte_spec. destruct (contains_byte b data); split; congruence.
Qed.

(** ** The UTF-8 codec: decoding undoes encoding *)

Lemma utf8_decode_1 (b0 : byte) (r : bytes) :
  byte_to_Z b0 < 0x80 ->
  utf8_decode (b0 :: r) = option_map (cons (byte_to_Z b0)) (utf8_decode r).
Proof.
  intros H. cbn [utf8_decode].
  destruct (Z.ltb_spec (byte_to_Z b0) 0x80); [reflexivity | lia].
Qed.

Lemma is_cont_true (z : Z) : 0x80 <= z <= 0xBF -> is_cont z = true.
Proof. unfold is_cont. intros H. apply andb_true_iff. split; lia. Qed.

Lemma is_surrogate_false (c : Z) :
  ~ (0xD800 <= c <= 0xDFFF) -> is_surrogate c = false.
Proof.
  unfold is_surrogate. intros H. apply andb_false_iff.
  destruct (Z.leb_spec 0xD800 c); [right | left; reflexivity].
  apply Z.leb_gt. lia.
Qed.

Lemma utf8_decode_2 (b0 b1 : byte) (r : bytes) :
  let c := (byte_to_Z b0 - 0xC0) * 64 + (byte_to_Z b1 - 0x80) in
  0xC0 <= byte_to_Z b0 < 0xE0 ->
  0x80 <= byte_to_Z b1 <= 0xBF ->
  0x80 <= c ->
  utf8_decode (b0 :: b1 :: r) = option_map (cons c) (utf8_decode r).
Proof.
  intros c H0 H1 Hc. cbn [utf8_decode]. fold c.
  destruct (Z.ltb_spec (byte_to_Z b0) 0x80); [lia |].
  destruct (Z.ltb_spec (byte_to_Z b0) 0xC0); [lia |].
  destruct (Z.ltb_spec (byte_to_Z b0) 0xE0); [| lia].
  rewrite is_cont_true by assumption.
  destruct (Z.leb_spec 0x80 c); [reflexivity | lia].
Qed.

Lemma utf8_decode_3 (b0 b1 b2 : byte) (r : bytes) :
  let c := (byte_to_Z b0 - 0xE0) * 4096 + (byte_to_Z b1 - 0x80) * 64
           + (byte_to_Z b2 - 0x80) in
  0xE0 <= byte_to_Z b0 < 0xF0 ->
  0x80 <= byte_to_Z b1 <= 0xBF ->
  0x80 <= byte_to_Z b2 <= 0xBF ->
  0x800 <= c ->
  ~ (0xD800 <= c <= 0xDFFF) ->
  utf8_decode (b0 :: b1 :: b2 :: r) = option_map (cons c) (utf8_decode r).
Proof.
  intros c H0 H1 H2 Hc Hs. cbn [utf8_decode]. fold c.
  destruct (Z.ltb_spec (byte_to_Z b0) 0x80); [lia |].
  destruct (Z.ltb_spec (byte_to_Z b0) 0xC0); [lia |].
  destruct (Z.ltb_spec (byte_to_Z b0) 0xE0); [lia |].
  destruct (Z.ltb_spec (byte_to_Z b0) 0xF0); [| lia].
  rewrite !is_cont_true by assumption.
  rewrite is_surrogate_false by assumption.
  destruct (Z.leb_spec 0x800 c); [reflexivity | lia].
Qed.

Lemma utf8_decode_4 (b0 b1 b2 b3 : byte) (r : bytes) :
  let c := (byte_to_Z b0 - 0xF0) * 262144 + (byte_to_Z b1 - 0x80) * 4096
           + (byte_to_Z b2 - 0x80) * 64 + (byte_to_Z b3 - 0x80) in
  0xF0 <= byte_to_Z b0 < 0xF8 ->
  0x80 <= byte_to_Z b1 <= 0xBF ->
  0x80 <= byte_to_Z b2 <= 0xBF ->
  0x80 <= byte_to_Z b3 <= 0xBF ->
  0x10000 <= c <= 0x10FFFF ->
  utf8_decode (b0 :: b1 :: b2 :: b3 :: r) = option_map (cons c) (utf8_decode r).
Proof.
  intros c H0 H1 H2 H3 Hc. cbn [utf8_decode]. fold c.
  destruct (Z.ltb_spec (byte_to_Z b0) 0x80); [lia |].
  destruct (Z.ltb_spec (byte_to_Z b0) 0xC0); [lia |].
  destruct (Z.ltb_spec (byte_to_Z b0) 0xE0); [lia |].
  destruct (Z.ltb_spec (byte_to_Z b0) 0xF0); [lia |].
  destruct (Z.ltb_spec (byte_to_Z b0) 0xF8); [| lia].
  rewrite !is_cont_true by assumption.
  destruct (Z.leb_spec 0x10000 c); [| lia].
  destruct (Z.leb_spec c 0x10FFFF); [reflexivity | lia].
Qed.

Lemma utf8_decode_encode_char (c : Z) (bs rest : bytes) :
  utf8_encode_char c = Some bs ->
  utf8_decode (bs ++ rest) = option_map (cons c) (utf8_decode rest).
Proof.
  unfold utf8_encode_char. intros H.
  destruct (Z.ltb_spec c 0); [discriminate |].
  pose proof (Z.div_mod c 64 ltac:(lia)) as E64.
  pose proof (Z.mod_pos_bound c 64 ltac:(lia)) as B64.
  pose proof (Z.div_mod (c / 64) 64 ltac:(lia)) as E4096.
  pose proof (Z.mod_pos_bound (c / 64) 64 ltac:(lia)) as B4096.
  pose proof (Z.div_mod (c / 4096) 64 ltac:(lia)) as E262144.
  pose proof (Z.mod_pos_bound (c / 4096) 64 ltac:(lia)) as B262144.
  assert (D1 : c / 4096 = c / 64 / 64)
    by (rewrite Z.div_div by lia; reflexivity).
  assert (D2 : c / 262144 = c / 4096 / 64)
    by (rewrite Z.div_div by lia; reflexivity).
  assert (P64 : 0 <= c / 64) by (apply Z.div_pos; lia).
  assert (P4096 : 0 <= c / 4096) by (apply Z.div_pos; lia).
  assert (P262144 : 0 <= c / 262144) by (apply Z.div_pos; lia).
  destruct (Z.ltb_spec c 0x80).
  { injection H as <-. cbn [app].
    rewrite utf8_decode_1; rewrite byte_to_of_Z by lia; [reflexivity | lia]. }
  destruct (Z.ltb_spec c 0x800).
  { injection H as <-. cbn [app].
    rewrite utf8_decode_2; rewrite ?byte_to_of_Z by lia; try lia.
    f_equal. f_equal. lia. }
  destruct (Z.ltb_spec c 0x10000).
  { destruct (is_surrogate c) eqn:Es; [discriminate |].
    assert (Hs : ~ (0xD800 <= c <= 0xDFFF)).
    { unfold is_surrogate in Es. apply andb_false_iff in Es.
      destruct Es as [Es|Es]; apply Z.leb_gt in Es; lia. }
    injection H as <-. cbn [app].
    rewrite utf8_decode_3; rewrite ?byte_to_of_Z by lia; try lia.
    f_equal. f_equal. lia. }
  destruct (Z.leb_spec c 0x10FFFF); [| discriminate].
  injection H as <-. cbn [app].
  rewrite utf8_decode_4; rewrite ?byte_to_of_Z by lia; try lia.
  f_equal. f_equal. lia.
Qed.

Lemma utf8_decode_encode (text : str) (data : bytes) :
  utf8_encode text = Some data -> utf8_decode data = Some text.
Proof.
  revert data. induction text as [|c text IH]; intros data H; simpl in H.
  - now injection H as <-.
  - destruct (utf8_encode_char c) as [bs|] eqn:Ec; [| discriminate].
    destruct (utf8_encode text) as [rest|] eqn:Et; [| discriminate].
    injection H as <-.
    rewrite (utf8_decode_encode_char _ _ _ Ec), (IH rest eq_refl).
    reflexivity.
Qed.

Lemma utf8_encode_char_scalar (c : Z) :
  is_scalar c -> exists bs, utf8_encode_char c = Some bs.
Proof.
  unfold is_scalar, utf8_encode_char. intros [Hr Hs].
  destruct (Z.ltb_spec c 0); [lia |].
  destruct (Z.ltb_spec c 0x80); [eauto |].
  destruct (Z.ltb_spec c 0x800); [eauto |].
  destruct (Z.ltb_spec c 0x10000).
  - rewrite is_surrogate_false by assumption. eauto.
  - destruct (Z.leb_spec c 0x10FFFF); [eauto | lia].
Qed.

Lemma utf8_encode_scalar (text : str) :
  Forall is_scalar text -> exists data, utf8_encode text = Some data.
Proof.
  induction 1 as [|c text Hc _ [rest IH]]; simpl.
  - eauto.
  - destruct (utf8_encode_char_scalar c Hc) as [bs ->]. rewrite IH. eauto.
Qed.

(** ** The UTF-8 codec: a buffer decodes exactly when it is an encoding *)

Lemma byte_of_to_Z (b : byte) : byte_of_Z (byte_to_Z b) = b.
Proof.
  unfold byte_of_Z, byte_to_Z. rewrite N2Z.id, Byte.of_to_N. reflexivity.
Qed.

Lemma is_cont_inv (z : Z) : is_cont z = true -> 0x80 <= z <= 0xBF.
Proof. unfold is_cont. rewrite andb_true_iff. lia. Qed.

Lemma is_surrogate_inv (c : Z) :
  is_surrogate c = false -> ~ (0xD800 <= c <= 0xDFFF).
Proof.
  unfold is_surrogate. rewrite andb_false_iff.
  intros [H|H]; apply Z.leb_gt in H; lia.
Qed.

(** The quotients and remainders by 64 that the encoder takes of [c] *)
Ltac split_code_point c :=
  pose proof (Z.div_mod c 64 ltac:(lia));
  pose proof (Z.mod_pos_bound c 64 ltac:(lia));
  pose proof (Z.div_mod (c / 64) 64 ltac:(lia));
  pose proof (Z.mod_pos_bound (c / 64) 64 ltac:(lia));
  pose proof (Z.div_mod (c / 4096) 64 ltac:(lia));
  pose proof (Z.mod_pos_bound (c / 4096) 64 ltac:(lia));
  assert (c / 4096 = c / 64 / 64) by (rewrite Z.div_div by lia; reflexivity);
  assert (c / 262144 = c / 4096 / 64) by (rewrite Z.div_div by lia; reflexivity).

Lemma utf8_encode_char_1 (b0 : byte) :
  byte_to_Z b0 < 0x80 -> utf8_encode_char (byte_to_Z b0) = Some [b0].
Proof.
  intros H0. unfold utf8_encode_char. pose proof (byte_to_Z_range b0).
  destruct (Z.ltb_spec (byte_to_Z b0) 0); [lia |].
  destruct (Z.ltb_spec (byte_to_Z b0) 0x80); [| lia].
  now rewrite byte_of_to_Z.
Qed.

Lemma utf8_encode_char_2 (b0 b1 : byte) :
  let c := (byte_to_Z b0 - 0xC0) * 64 + (byte_to_Z b1 - 0x80) in
  0xC0 <= byte_to_Z b0 < 0xE0 ->
  0x80 <= byte_to_Z b1 <= 0xBF ->
  0x80 <= c ->
  utf8_encode_char c = Some [b0; b1].
Proof.
  intros c H0 H1 Hc. unfold utf8_encode_char.
  split_code_point c.
  destruct (Z.ltb_spec c 0); [lia |].
  destruct (Z.ltb_spec c 0x80); [lia |].
  destruct (Z.ltb_spec c 0x800); [| lia].
  replace (0xC0 + c / 64) with (byte_to_Z b0) by lia.
  replace (0x80 + c mod 64) with (byte_to_Z b1) by lia.
  now rewrite !byte_of_to_Z.
Qed.

Lemma utf8_encode_char_3 (b0 b1 b2 : byte) :
  let c := (byte_to_Z b0 - 0xE0) * 4096 + (byte_to_Z b1 - 0x80) * 64
           + (byte_to_Z b2 - 0x80) in
  0xE0 <= byte_to_Z b0 < 0xF0 ->
  0x80 <= byte_to_Z b1 <= 0xBF ->
  0x80 <= byte_to_Z b2 <= 0xBF ->
  0x800 <= c ->
  is_surrogate c = false ->
  utf8_encode_char c = Some [b0; b1; b2].
Proof.
  intros c H0 H1 H2 Hc Hs. unfold utf8_encode_char. rewrite Hs.
  split_code_point c.
  destruct (Z.ltb_spec c 0); [lia |].
  destruct (Z.ltb_spec c 0x80); [lia |].
  destruct (Z.ltb_spec c 0x800); [lia |].
  destruct (Z.ltb_spec c 0x10000); [| lia].
  replace (0xE0 + c / 4096) with (byte_to_Z b0) by lia.
  replace (0x80 + (c / 64) mod 64) with (byte_to_Z b1) by lia.
  replace (0x80 + c mod 64) with (byte_to_Z b2) by lia.
  now rewrite !byte_of_to_Z.
Qed.

Lemma utf8_encode_char_4 (b0 b1 b2 b3 : byte) :
  let c := (byte_to_Z b0 - 0xF0) * 262144 + (byte_to_Z b1 - 0x80) * 4096
           + (byte_to_Z b2 - 0x80) * 64 + (byte_to_Z b3 - 0x80) in
  0xF0 <= byte_to_Z b0 < 0xF8 ->
  0x80 <= byte_to_Z b1 <= 0xBF ->
  0x80 <= byte_to_Z b2 <= 0xBF ->
  0x80 <= byte_to_Z b3 <= 0xBF ->
  0x10000 <= c <= 0x10FFFF ->
  utf8_encode_char c = Some [b0; b1; b2; b3].
Proof.
  intros c H0 H1 H2 H3 Hc. unfold utf8_encode_char.
  split_code_point c.
  destruct (Z.ltb_spec c 0); [lia |].
  destruct (Z.ltb_spec c 0x80); [lia |].
  destruct (Z.ltb_spec c 0x800); [lia |].
  destruct (Z.ltb_spec c 0x10000); [lia |].
  destruct (Z.leb_spec c 0x10FFFF); [| lia].
  replace (0xF0 + c / 262144) with (byte_to_Z b0) by lia.
  replace (0x80 + (c / 4096) mod 64) with (byte_to_Z b1) by lia.
  replace (0x80 + (c / 64) mod 64) with (byte_to_Z b2) by lia.
  replace (0x80 + c mod 64) with (byte_to_Z b3) by lia.
  now rewrite !byte_of_to_Z.
Qed.

Lemma option_map_cons_Some (c : Z) (o : option str) (text : str) :
  option_map (cons c) o = Some text ->
  exists text', o = Some text' /\ text = c :: text'.
Proof. destruct o as [t|]; [intros [= <-]; eauto | discriminate]. Qed.

Lemma utf8_encode_decode_bounded (n : nat) :
  forall (data : bytes) (text : str),
    (length data <= n)%nat ->
    utf8_decode data = Some text -> utf8_encode text = Some data.
Proof.
  induction n as [|n IH]; intros data text Hlen Hdec;
    destruct data as [|b0 r0]; cbn [length] in Hlen; try lia;
    try (cbn in Hdec; injection Hdec as <-; reflexivity).
  cbn [utf8_decode] in Hdec.
  pose proof (byte_to_Z_range b0) as R0.
  destruct (Z.ltb_spec (byte_to_Z b0) 0x80).
  { apply option_map_cons_Some in Hdec as (t & Ht & ->).
    cbn [utf8_encode]. rewrite utf8_encode_char_1 by assumption.
    rewrite (IH r0 t) by (assumption || lia). reflexivity. }
  destruct (Z.ltb_spec (byte_to_Z b0) 0xC0); [discriminate |].
  destruct (Z.ltb_spec (byte_to_Z b0) 0xE0).
  { destruct r0 as [|b1 r1]; [discriminate |].
    destruct (is_cont (byte_to_Z b1) && _) eqn:E; [| discriminate].
    rewrite andb_true_iff in E. destruct E as [E1 E2].
    apply is_cont_inv in E1. apply Z.leb_le in E2.
    apply option_map_cons_Some in Hdec as (t & Ht & ->).
    cbn [utf8_encode]. rewrite utf8_encode_char_2 by (assumption || lia).
    rewrite (IH r1 t) by (assumption || cbn [length] in Hlen; lia).
    reflexivity. }
  destruct (Z.ltb_spec (byte_to_Z b0) 0xF0).
  { destruct r0 as [|b1 [|b2 r2]]; [discriminate | discriminate |].
    destruct (is_cont (byte_to_Z b1) && _ && _ && _) eqn:E; [| discriminate].
    rewrite !andb_true_iff in E. destruct E as [[[E1 E2] E3] E4].
    apply is_cont_inv in E1, E2. apply Z.leb_le in E3.
    apply negb_true_iff in E4.
    apply option_map_cons_Some in Hdec as (t & Ht & ->).
    cbn [utf8_encode]. rewrite utf8_encode_char_3 by (assumption || lia).
    rewrite (IH r2 t) by (assumption || cbn [length] in Hlen; lia).
    reflexivity. }
  destruct (Z.ltb_spec (byte_to_Z b0) 0xF8); [| discriminate].
  destruct r0 as [|b1 [|b2 [|b3 r3]]]; [discriminate .. |].
  destruct (is_cont (byte_to_Z b1) && _ && _ && _ && _) eqn:E;
    [| discriminate].
  rewrite !andb_true_iff in E. destruct E as [[[[E1 E2] E3] E4] E5].
  apply is_cont_inv in E1, E2, E3. apply Z.leb_le in E4, E5.
  apply option_map_cons_Some in Hdec as (t & Ht & ->).
  cbn [utf8_encode]. rewrite utf8_encode_char_4 by (assumption || lia).
  rewrite (IH r3 t) by (assumption || cbn [length] in Hlen; lia).
  reflexivity.
Qed.

(** Strict decoding succeeds on the encodings of texts, and on nothing
    else. *)
Lemma utf8_decode_iff (data : bytes) (text : str) :
  utf8_decode data = Some text <-> utf8_encode text = Some data.
Proof.
  split.
  - apply (utf8_encode_decode_bounded (length data)). lia.
  - apply utf8_decode_encode.
Qed.

(** ** detector.py *)

Section DetectorFacts.

Variable cp932_decode : bytes -> option str.

Lemma detect_rule_sound (data : bytes) :
  detect_rule cp932_decode data (detect_encoding_from_bytes cp932_decode data).
Proof.
  unfold detect_encoding_from_bytes.
  destruct (startswith UTF8_BOM_bytes data) eqn:E1.
  { apply rule_utf8_bom. now apply startswith_spec. }
  apply startswith_false in E1.
  destruct (startswith UTF16_LE_BOM data) eqn:E2.
  { apply rule_utf16_le; [assumption | now apply startswith_spec]. }
  apply startswith_false in E2.
  destruct (startswith UTF16_BE_BOM data) eqn:E3.
  { apply rule_utf16_be; [assumption .. | now apply startswith_spec]. }
  apply startswith_false in E3.
  assert (Hno : no_bom data) by (repeat split; assumption).
  destruct (length data =? 0)%nat eqn:E4.
  { apply Nat.eqb_eq in E4. apply rule_empty; [assumption |].
    now destruct data. }
  assert (Hne : data <> []) by (intros ->; discriminate).
  destruct (contains_byte x00 data) eqn:E5.
  { apply rule_binary; [assumption .. | now apply contains_byte_spec]. }
  apply contains_byte_false in E5.
  destruct (utf8_decode data) as [text|] eqn:E6.
  { apply rule_utf8; try assumption. exists text. now apply utf8_decode_iff. }
  assert (Hnu : ~ utf8_valid data).
  { intros [text Ht]. apply utf8_decode_iff in Ht. congruence. }
  destruct (cp932_decode data) as [text|] eqn:E7.
  - apply rule_cp932; try assumption. now exists text.
  - apply rule_unknown; try assumption. intros [text Ht]. congruence.
Qed.

Lemma detect_rule_functional (data : bytes) (e1 e2 : Encoding) :
  detect_rule cp932_decode data e1 -> detect_rule cp932_decode data e2 ->
  e1 = e2.
Proof.
  intros H1 H2.
  destruct H1; destruct H2; try reflexivity;
    unfold no_bom in *;
    repeat match goal with
           | H : _ /\ _ |- _ => destruct H
           end;
    try contradiction; try congruence.
Qed.

(** C1. For every byte buffer, [detect_encoding_from_bytes] returns the
    encoding the ordered rules give, the first matching rule winning: a
    leading EF BB BF gives UTF8_BOM, a leading FF FE gives UTF16_LE, a
    leading FE FF gives UTF16_BE; otherwise the empty buffer gives
    UTF8_NO_BOM; otherwise a 0x00 byte anywhere gives BINARY; otherwise a
    buffer that decodes strictly as UTF-8 gives UTF8_NO_BOM; otherwise one
    that decodes strictly as CP932 gives CP932; otherwise UNKNOWN. *)
Theorem detect_encoding_follows_rules (data : bytes) (e : Encoding) :
  detect_rule cp932_decode data e
  <-> detect_encoding_from_bytes cp932_decode data = e.
Proof.
  split.
  - intros H. eapply detect_rule_functional; [apply detect_rule_sound | exact H].
  - intros <-. apply detect_rule_sound.
Qed.

End DetectorFacts.

(** C6. [should_convert encoding flag] is true exactly when the encoding is
    CP932, or the flag is set and the encoding is UTF8_NO_BOM; it is false
    for UTF8_BOM, UTF16_LE, UTF16_BE, BINARY and UNKNOWN whatever the
    flag. *)
Theorem should_convert_iff (encoding : Encoding) (include_utf8_no_bom : bool) :
  (should_convert encoding include_utf8_no_bom = true
   <-> encoding = CP932
       \/ (include_utf8_no_bom = true /\ encoding = UTF8_NO_BOM))
  /\ should_convert UTF8_BOM include_utf8_no_bom = false
  /\ should_convert UTF16_LE include_utf8_no_bom = false
  /\ should_convert UTF16_BE include_utf8_no_bom = false
  /\ should_convert BINARY include_utf8_no_bom = false
  /\ should_convert UNKNOWN include_utf8_no_bom = false.
Proof.
  split.
  - destruct encoding, include_utf8_no_bom; vm_compute; split;
      try discriminate; try (intros _; auto; fail); intuition discriminate.
  - destruct include_utf8_no_bom; repeat split; reflexivity.
Qed.

(** ** The monad: unfolding, and the operations that only read *)

Ltac unfold_M :=
  unfold mbind, M_bind, mret, M_ret, lift, raise, try_except in *.

Lemma read_bytes_reads (p : Path) (fs : FS) : snd (read_bytes p fs) = fs.
Proof.
  unfold read_bytes.
  destruct (lookup_node (nodes fs) (key fs p)) as [[[|] d|]|]; reflexivity.
Qed.

Lemma read_bytes_inv (p : Path) (fs fs' : FS) (o : outcome bytes) :
  read_bytes p fs = (o, fs') -> fs' = fs.
Proof.
  intros H. pose proof (read_bytes_reads p fs) as E. rewrite H in E.
  exact E.
Qed.

Lemma cp932_single_byte_scalar (data : bytes) (text : str) :
  cp932_single_byte data = Some text -> Forall is_scalar text.
Proof.
  revert text. induction data as [|b data IH]; intros text H; simpl in H.
  - injection H as <-. constructor.
  - pose proof (byte_to_Z_range b) as Hb.
    destruct (Z.ltb_spec (byte_to_Z b) 0x80).
    + destruct (cp932_single_byte data) as [t|]; [| discriminate].
      injection H as <-. constructor; [| now apply IH].
      unfold is_scalar. lia.
    + destruct (Z.leb_spec 0xA1 (byte_to_Z b)); [| discriminate].
      destruct (Z.leb_spec (byte_to_Z b) 0xDF); [| discriminate].
      destruct (cp932_single_byte data) as [t|]; [| discriminate].
      injection H as <-. constructor; [| now apply IH].
      unfold is_scalar. lia.
Qed.

(** ** converter.py *)

Section ConverterFacts.

Variable cp932_decode : bytes -> option str.

(** The CP932 code page maps to characters of the Basic Multilingual
    Plane: a decoded text holds no surrogate. *)
Hypothesis cp932_decode_scalar :
  forall data text, cp932_decode data = Some text -> Forall is_scalar text.

(** C3. For a buffer that decodes strictly as CP932 to a text [T], reading
    it through the CP932 branch of [read_file_content] and passing the
    result to [convert_to_utf8_bom] gives exactly EF BB BF followed by the
    UTF-8 encoding of [T]; dropping the three bytes of the mark and
    decoding the rest as UTF-8 gives [T] back. *)
Theorem cp932_conversion_round_trip (fs : FS) (file_path : Path)
  (data : bytes) (T : str) :
  read_bytes file_path fs = (Return data, fs) ->
  cp932_decode data = Some T ->
  read_file_content cp932_decode file_path CP932 fs = (Return (T, data), fs)
  /\ exists encoded,
       utf8_encode T = Some encoded
       /\ convert_to_utf8_bom T data = Return ([xef; xbb; xbf] ++ encoded)
       /\ utf8_decode (drop 3 ([xef; xbb; xbf] ++ encoded)) = Some T.
Proof.
  intros Hread Hdec. split.
  - unfold read_file_content. unfold_M. rewrite Hread.
    cbn. unfold decode_with. rewrite Hdec. reflexivity.
  - destruct (utf8_encode_scalar T (cp932_decode_scalar _ _ Hdec))
      as [encoded Henc].
    exists encoded. split; [assumption |]. split.
    + unfold convert_to_utf8_bom. rewrite Henc. reflexivity.
    + cbn [drop app]. now apply utf8_decode_encode.
Qed.

End ConverterFacts.

Lemma cp932_conversion_round_trip_witness :
  read_file_content cp932_single_byte (Path_of_string "/proj/a.cs") CP932
    sample_fs
  = (Return ([0xFF71; 0x41], [xb1; x41]), sample_fs)
  /\ exists encoded,
       utf8_encode [0xFF71; 0x41] = Some encoded
       /\ convert_to_utf8_bom [0xFF71; 0x41] [xb1; x41]
          = Return ([xef; xbb; xbf] ++ encoded)
       /\ utf8_decode (drop 3 ([xef; xbb; xbf] ++ encoded))
          = Some [0xFF71; 0x41].
Proof.
  apply (cp932_conversion_round_trip cp932_single_byte
           cp932_single_byte_scalar sample_fs (Path_of_string "/proj/a.cs")
           [xb1; x41] [0xFF71; 0x41]).
  - vm_compute. reflexivity.
  - vm_compute. reflexivity.
Defined.

(** ** converter.py: the summary *)

Lemma update_summary_step (s : ConversionSummary.t) (r : FileResult.t) :
  ConversionSummary.total_files (update_summary s r)
  = ConversionSummary.total_files s + 1
  /\ status_total (update_summary s r) = status_total s + 1.
Proof.
  destruct s, r as [p st enc msg]. unfold update_summary, status_total.
  cbn [FileResult.status FileResult.source_encoding].
  destruct st, enc as [enc|]; repeat case_bool_decide; try congruence;
    cbn; split; lia.
Qed.

(** C10. Starting from the zero summary, after any sequence of
    [update_summary] calls the total equals the sum of the four status
    counters (and the number of calls): every call adds one to
    [total_files] and to exactly one status counter. *)
Theorem summary_total_is_sum_of_statuses (results : list FileResult.t) :
  let s := fold_left update_summary results ConversionSummary.init in
  ConversionSummary.total_files s
  = ConversionSummary.converted s + ConversionSummary.skipped s
    + ConversionSummary.warnings s + ConversionSummary.errors s
  /\ ConversionSummary.total_files s = Z.of_nat (length results).
Proof.
  cbv zeta.
  assert (G : forall s0 n,
             ConversionSummary.total_files s0 = status_total s0 ->
             ConversionSummary.total_files s0 = Z.of_nat n ->
             let s := fold_left update_summary results s0 in
             ConversionSummary.total_files s = status_total s
             /\ ConversionSummary.total_files s
                = Z.of_nat (n + length results)).
  { induction results as [|r results IH]; intros s0 n H1 H2; cbn [fold_left length].
    - split; [assumption | rewrite H2; f_equal; lia].
    - destruct (update_summary_step s0 r) as [Et Es].
      destruct (IH (update_summary s0 r) (S n)) as [G1 G2]; [lia | lia |].
      split; [exact G1 | rewrite G2; f_equal; lia]. }
  destruct (G ConversionSummary.init O eq_refl eq_refl) as [G1 G2].
  split; [exact G1 | exact G2].
Qed.

(** ** converter.py: [convert_file] *)

Lemma should_convert_not_warning (e : Encoding) (flag : bool) :
  should_convert e flag = true -> is_warning_encoding e = false.
Proof. destruct e, flag; vm_compute; congruence. Qed.

Section ConvertFileFacts.

Variable cp932_decode : bytes -> option str.

Lemma detect_encoding_read (p : Path) (fs : FS) (data : bytes) :
  read_bytes p fs = (Return data, fs) ->
  detect_encoding cp932_decode p fs
  = (Return (detect_encoding_from_bytes cp932_decode data), fs).
Proof. intros H. unfold detect_encoding. unfold_M. now rewrite H. Qed.

Lemma detect_encoding_raise (p : Path) (fs : FS) (e : exn) :
  read_bytes p fs = (Raise e, fs) ->
  detect_encoding cp932_decode p fs = (Raise e, fs).
Proof. intros H. unfold detect_encoding. unfold_M. now rewrite H. Qed.

(** What [convert_file] returns once the [try] block has raised *)
Lemma convert_file_handler (file_path : Path) (config : ConversionConfig.t)
  (run_id : string) (fs fs1 : FS) (e : exn) :
  convert_file_try cp932_decode file_path config run_id fs = (Raise e, fs1) ->
  convert_file cp932_decode file_path config run_id fs
  = (Return
       (error_result file_path
          (if bool_decide (exn_cls e = PermissionError)
           then "Permission denied"
           else if bool_decide (exn_cls e = FileNotFoundError)
                then "File not found"
                else exn_msg e)),
     fs1).
Proof.
  intros H. unfold convert_file, try_except. rewrite H.
  unfold error_result. repeat case_bool_decide; reflexivity.
Qed.

Lemma convert_file_return (file_path : Path) (config : ConversionConfig.t)
  (run_id : string) (fs fs1 : FS)
  (r : FileResult.t * option ConvertedFileInfo.t) :
  convert_file_try cp932_decode file_path config run_id fs = (Return r, fs1) ->
  convert_file cp932_decode file_path config run_id fs = (Return r, fs1).
Proof. intros H. unfold convert_file, try_except. now rewrite H. Qed.

(** The [try] block up to the dry-run test touches nothing. *)
Lemma convert_file_try_no_write (file_path : Path)
  (config : ConversionConfig.t) (run_id : string) (fs : FS) (data : bytes) :
  let encoding := detect_encoding_from_bytes cp932_decode data in
  read_bytes file_path fs = (Return data, fs) ->
  convert_file_try cp932_decode file_path config run_id fs
  = if is_warning_encoding encoding then
      (Return (FileResult.mk file_path WARNING (Some encoding)
                 (Some ("Skipped: " +:+ Encoding_value encoding)), None), fs)
    else if negb (should_convert encoding
                    (ConversionConfig.include_utf8_no_bom config)) then
      (Return (FileResult.mk file_path SKIPPED (Some encoding)
                 (Some ("Already " +:+ Encoding_value encoding)), None), fs)
    else if negb (ConversionConfig.execute config) then
      (Return (FileResult.mk file_path CONVERTED (Some encoding)
                 (Some "Would convert (dry run)"), None), fs)
    else convert_file_try cp932_decode file_path config run_id fs.
Proof.
  intros encoding Hread.
  destruct (is_warning_encoding encoding) eqn:Ew;
    [| destruct (negb (should_convert encoding
                         (ConversionConfig.include_utf8_no_bom config))) eqn:Es;
       [| destruct (negb (ConversionConfig.execute config)) eqn:Ex;
          [| reflexivity]]];
    unfold convert_file_try; unfold mbind at 1; unfold M_bind;
    rewrite (detect_encoding_read _ _ _ Hread); fold encoding;
    rewrite Ew; try rewrite Es; try rewrite Ex; reflexivity.
Qed.

(** C4. With [execute = False], [convert_file] changes nothing in the file
    system (no file content, no backup directory, no backup copy) and
    returns no [ConvertedFileInfo]; for a file whose detected encoding
    satisfies [should_convert], the result has status CONVERTED and the
    would-convert message. *)
Theorem dry_run_has_no_effect (file_path : Path)
  (config : ConversionConfig.t) (run_id : string) (fs : FS) :
  ConversionConfig.execute config = false ->
  exists result,
    convert_file cp932_decode file_path config run_id fs
    = (Return (result, None), fs)
    /\ forall data,
         read_bytes file_path fs = (Return data, fs) ->
         should_convert (detect_encoding_from_bytes cp932_decode data)
           (ConversionConfig.include_utf8_no_bom config) = true ->
         result
         = FileResult.mk file_path CONVERTED
             (Some (detect_encoding_from_bytes cp932_decode data))
             (Some "Would convert (dry run)").
Proof.
  intros Hdry.
  destruct (read_bytes file_path fs) as [[data|e] fs'] eqn:Hread;
    pose proof (read_bytes_inv _ _ _ _ Hread) as ->.
  - pose proof (convert_file_try_no_write file_path config run_id fs data
                  Hread) as Htry.
    cbv zeta in Htry. rewrite Hdry in Htry. cbn [negb] in Htry.
    set (encoding := detect_encoding_from_bytes cp932_decode data) in *.
    destruct (is_warning_encoding encoding) eqn:Ew;
      [| destruct (should_convert encoding
                     (ConversionConfig.include_utf8_no_bom config)) eqn:Es];
      cbn [negb] in Htry;
      (eexists; split; [apply convert_file_return; exact Htry |]);
      intros data' Hread' Hconv; injection Hread' as <-;
      fold encoding in Hconv.
    + apply should_convert_not_warning in Hconv. congruence.
    + reflexivity.
    + congruence.
  - assert (Htry : convert_file_try cp932_decode file_path config run_id fs
                   = (Raise e, fs)).
    { unfold convert_file_try. unfold mbind at 1. unfold M_bind.
      now rewrite (detect_encoding_raise _ _ _ Hread). }
    eexists. split.
    + rewrite (convert_file_handler _ _ _ _ _ _ Htry). reflexivity.
    + intros data' Hread'. discriminate.
Qed.

(** C5. [convert_file] never raises: it returns one [FileResult] whatever
    happens in its [try] block. When the block returns, that is the
    result; when it raises [PermissionError] the result is ERROR with
    "Permission denied"; when it raises [FileNotFoundError] the result is
    ERROR with "File not found"; any other exception gives ERROR with the
    exception's message. *)
Theorem convert_file_never_raises (file_path : Path)
  (config : ConversionConfig.t) (run_id : string) (fs : FS) :
  (exists result info fs',
     convert_file cp932_decode file_path config run_id fs
     = (Return (result, info), fs'))
  /\ (forall r fs1,
        convert_file_try cp932_decode file_path config run_id fs
        = (Return r, fs1) ->
        convert_file cp932_decode file_path config run_id fs = (Return r, fs1))
  /\ (forall msg fs1,
        convert_file_try cp932_decode file_path config run_id fs
        = (Raise (Exn PermissionError msg), fs1) ->
        convert_file cp932_decode file_path config run_id fs
        = (Return (FileResult.mk file_path ERROR None
                     (Some "Permission denied"), None), fs1))
  /\ (forall msg fs1,
        convert_file_try cp932_decode file_path config run_id fs
        = (Raise (Exn FileNotFoundError msg), fs1) ->
        convert_file cp932_decode file_path config run_id fs
        = (Return (FileResult.mk file_path ERROR None
                     (Some "File not found"), None), fs1))
  /\ (forall e fs1,
        convert_file_try cp932_decode file_path config run_id fs
        = (Raise e, fs1) ->
        exn_cls e <> PermissionError ->
        exn_cls e <> FileNotFoundError ->
        convert_file cp932_decode file_path config run_id fs
        = (Return (FileResult.mk file_path ERROR None (Some (exn_msg e)),
                   None), fs1)).
Proof.
  split; [| split; [| split; [| split]]].
  - destruct (convert_file_try cp932_decode file_path config run_id fs)
      as [[[result info]|e] fs1] eqn:Htry.
    + exists result, info, fs1. now apply convert_file_return.
    + rewrite (convert_file_handler _ _ _ _ _ _ Htry). unfold error_result.
      eauto.
  - intros r fs1. apply convert_file_return.
  - intros msg fs1 Htry. now rewrite (convert_file_handler _ _ _ _ _ _ Htry).
  - intros msg fs1 Htry. now rewrite (convert_file_handler _ _ _ _ _ _ Htry).
  - intros e fs1 Htry H1 H2.
    rewrite (convert_file_handler _ _ _ _ _ _ Htry).
    rewrite !bool_decide_eq_false_2 by assumption. reflexivity.
Qed.

End ConvertFileFacts.

(** ** Running over converted files *)


Section RerunFacts.

Variable cp932_decode : bytes -> option str.
Variable json_dump : json -> bytes.
Variable fnmatch : string -> string -> bool.
Variable lower : string -> string.





End RerunFacts.

(** ** The manifest: dictionary form and file *)

Lemma file_from_to_dict (f : ConvertedFileInfo.t) :
  RunManifest.file_from_dict (RunManifest.file_to_dict f) = Return f.
Proof. destruct f. reflexivity. Qed.

Lemma files_from_to_dict (files : list ConvertedFileInfo.t) :
  map_outcome RunManifest.file_from_dict (map RunManifest.file_to_dict files)
  = Return files.
Proof.
  induction files as [|f files IH]; cbn [map map_outcome].
  - reflexivity.
  - rewrite file_from_to_dict, IH. reflexivity.
Qed.

Lemma from_dict_to_dict (m : RunManifest.t) :
  RunManifest.from_dict (RunManifest.to_dict m) = Return m.
Proof.
  destruct m as [rid ts tp files cfg].
  unfold RunManifest.from_dict, RunManifest.to_dict.
  cbn [RunManifest.run_id RunManifest.timestamp RunManifest.target_path
       RunManifest.converted_files RunManifest.config].
  cbn [subscript assoc_lookup outcome_bind as_str as_list String.eqb Ascii.eqb
       Bool.eqb].
  rewrite files_from_to_dict. reflexivity.
Qed.

(** [mkdir] only adds directories where nothing was. *)
Lemma mkdir_rev_lookup (rk : list string) (ns ns' : gmap (list string) node)
  (k : list string) :
  mkdir_rev rk ns = Return ns' ->
  ns' !! k = ns !! k \/ (ns !! k = None /\ ns' !! k = Some Dir).
Proof.
  revert ns'. induction rk as [|w rk IH]; intros ns' H; cbn [mkdir_rev] in H.
  - cbn in H. injection H as <-. now left.
  - destruct (lookup_node ns (rev (w :: rk))) as [[r d|]|] eqn:E.
    + discriminate.
    + injection H as <-. now left.
    + destruct (mkdir_rev rk ns) as [ns1|e] eqn:E1; [| discriminate].
      injection H as <-.
      destruct (decide (rev (w :: rk) = k)) as [<-|Hne].
      * right. rewrite lookup_insert_eq. split; [| reflexivity].
        unfold lookup_node in E.
        destruct (rev (w :: rk)); [discriminate | exact E].
      * rewrite lookup_insert_ne by assumption. now apply IH.
Qed.

Section ManifestFacts.

Variable json_dump : json -> bytes.
Variable json_load : bytes -> outcome json.

(** C8. A manifest rebuilt from its dictionary form is the manifest:
    [from_dict (to_dict m) = m]. Hence, for a manifest whose dictionary the
    JSON library reads back as written, [load_manifest] after a successful
    [save_manifest], for the same backup directory and the manifest's run
    id, returns that manifest and not the absence signal (the manifest
    file being new, or at least not an existing unreadable file). *)
Theorem manifest_round_trip :
  (forall m, RunManifest.from_dict (RunManifest.to_dict m) = Return m)
  /\ (forall m backup_dir fs fs' saved_path,
        json_load (json_dump (RunManifest.to_dict m))
        = Return (RunManifest.to_dict m) ->
        (forall data,
           nodes fs !! key fs (get_manifest_path backup_dir
                                 (RunManifest.run_id m))
           <> Some (File false data)) ->
        save_manifest json_dump m backup_dir fs = (Return saved_path, fs') ->
        load_manifest json_load backup_dir (RunManifest.run_id m) fs'
        = (Return (Some m), fs')).
Proof.
  split; [exact from_dict_to_dict |].
  intros m backup_dir fs fs' saved_path Hjson Hperm Hsave.
  unfold save_manifest in Hsave.
  set (mp := get_manifest_path backup_dir (RunManifest.run_id m)) in *.
  unfold mbind at 1 in Hsave. unfold M_bind in Hsave.
  unfold mkdir_parents in Hsave.
  destruct (mkdir_rev (rev (key fs (Path_parent mp))) (nodes fs))
    as [ns1|e] eqn:Emk; [| discriminate].
  unfold mbind at 1 in Hsave. unfold M_bind in Hsave.
  unfold write_bytes, write_node in Hsave.
  change (key (set_nodes fs ns1) mp) with (key fs mp) in Hsave.
  cbn [nodes set_nodes] in Hsave.
  set (k := key fs mp) in *.
  set (doc := json_dump (RunManifest.to_dict m)) in *.
  assert (Hload : forall r ns2,
             ns2 !! k = Some (File r doc) -> r = true -> k <> [] ->
             load_manifest json_load backup_dir (RunManifest.run_id m)
               (set_nodes (set_nodes fs ns1) ns2)
             = (Return (Some m), set_nodes (set_nodes fs ns1) ns2)).
  { intros r ns2 Hk -> Hne. unfold load_manifest. fold mp.
    unfold mbind at 1. unfold M_bind. unfold Path_exists.
    change (key (set_nodes (set_nodes fs ns1) ns2) mp) with k.
    cbn [nodes set_nodes].
    assert (Hlk : lookup_node ns2 k = Some (File true doc))
      by (unfold lookup_node; destruct k; [congruence | exact Hk]).
    rewrite Hlk. rewrite bool_decide_eq_true_2 by eauto. cbn [negb].
    unfold mbind at 1. unfold M_bind. unfold read_bytes.
    change (key (set_nodes (set_nodes fs ns1) ns2) mp) with k.
    cbn [nodes set_nodes]. rewrite Hlk.
    unfold_M. fold doc. rewrite Hjson, from_dict_to_dict. reflexivity. }
  destruct (lookup_node ns1 k) as [[r d|]|] eqn:Ek.
  - (* the manifest file exists and is overwritten *)
    unfold_M. injection Hsave as _ <-.
    assert (Hne : k <> []) by (intros E; rewrite E in Ek; discriminate).
    apply (Hload r); [apply lookup_insert_eq | | exact Hne].
    assert (Hk1 : ns1 !! k = Some (File r d))
      by (unfold lookup_node in Ek; destruct k; [congruence | exact Ek]).
    destruct (mkdir_rev_lookup _ _ _ k Emk) as [E|[_ E]]; [| congruence].
    rewrite Hk1 in E. destruct r; [reflexivity |].
    exfalso. apply (Hperm d). now symmetry.
  - discriminate.
  - (* the manifest file is new *)
    destruct (parent_is_dir ns1 k); [| discriminate].
    unfold_M. injection Hsave as _ <-.
    assert (Hne : k <> []) by (intros E; rewrite E in Ek; discriminate).
    apply (Hload true); [apply lookup_insert_eq | reflexivity | exact Hne].
Qed.

End ManifestFacts.

(** ** scanner.py: the walk has fuel enough *)

Lemma max_depth_bound (ns : gmap (list string) node) (k : list string)
  (n : node) :
  ns !! k = Some n -> (length k <= max_depth ns)%nat.
Proof.
  intros H. apply elem_of_map_to_list in H. unfold max_depth.
  induction (map_to_list ns) as [|kn l IH]; [inversion H |].
  cbn [foldr]. apply elem_of_cons in H as [<-|H].
  - cbn [fst]. lia.
  - specialize (IH H). lia.
Qed.

Lemma flat_map_ext_elem {A B} (f g : A -> list B) (l : list A) :
  (forall x, f x = g x) -> flat_map f l = flat_map g l.
Proof.
  intros H. induction l as [|x l IH]; cbn [flat_map]; [reflexivity |].
  now rewrite H, IH.
Qed.

(** Below the depth of the deepest node there is nothing to visit: once the
    fuel covers that depth, more fuel changes nothing. *)
Lemma os_walk_enough_fuel (ns : gmap (list string) node)
  (prune : list string -> list string) (fuel : nat) :
  forall (fuel' : nat) (top : list string),
    (max_depth ns < fuel + length top)%nat ->
    (fuel <= fuel')%nat ->
    os_walk fuel' ns prune top = os_walk fuel ns prune top.
Proof.
  induction fuel as [|fuel IH]; intros fuel' top Hdepth Hle.
  - assert (Hnone : lookup_node ns top = None).
    { destruct top as [|w top]; [cbn [length] in Hdepth; lia |].
      cbn [lookup_node]. destruct (ns !! (w :: top)) as [n|] eqn:E;
        [| reflexivity].
      apply max_depth_bound in E. lia. }
    destruct fuel'; cbn [os_walk]; [reflexivity | now rewrite Hnone].
  - destruct fuel' as [|fuel']; [lia |]. cbn [os_walk].
    destruct (lookup_node ns top) as [[r d|]|]; try reflexivity.
    destruct (listdir ns top) as [dirs files]. f_equal.
    apply flat_map_ext_elem. intros d. apply IH.
    + rewrite length_app. cbn [length]. lia.
    + lia.
Qed.

(** ** pathlib: prefixes and resolved paths *)



Lemma Forall_removelast {A} (P : A -> Prop) (l : list A) :
  Forall P l -> Forall P (removelast l).
Proof.
  induction 1 as [|x l Hx Hl IH]; cbn [removelast]; [constructor |].
  destruct l; [constructor | constructor; assumption].
Qed.

Lemma normalize_no_dotdot (acc ps : list string) :
  Forall (fun w => w <> "..") acc -> Forall (fun w => w <> "..") (normalize acc ps).
Proof.
  revert acc. induction ps as [|w ps IH]; intros acc Hacc; cbn [normalize].
  - exact Hacc.
  - destruct (String.eqb_spec w "..") as [->|Hne]; apply IH.
    + now apply Forall_removelast.
    + apply Forall_app. split; [exact Hacc | constructor; [exact Hne | constructor]].
Qed.

Lemma normalize_fixed (acc k : list string) :
  Forall (fun w => w <> "..") k -> normalize acc k = acc ++ k.
Proof.
  revert acc. induction k as [|w k IH]; intros acc Hk; cbn [normalize].
  - now rewrite app_nil_r.
  - inversion Hk as [|? ? Hw Hk']; subst.
    destruct (String.eqb_spec w "..") as [->|_]; [congruence |].
    rewrite IH by assumption. now rewrite <- app_assoc.
Qed.


(** ** backup.py: restore *)


Lemma copy2_target_prefix (ns : gmap (list string) node)
  (kd0 : list string) (name : string) :
  kd0 `prefix_of` match lookup_node ns kd0 with
                  | Some Dir => kd0 ++ [name]
                  | _ => kd0
                  end.
Proof.
  destruct (lookup_node ns kd0) as [[]|].
  - exists []. now rewrite app_nil_r.
  - now exists [name].
  - exists []. now rewrite app_nil_r.
Qed.






Section RestoreFacts.

Variable json_load : bytes -> outcome json.



End RestoreFacts.


(** The run [run2]: the first backup file is missing, and restore fails on
    that before it reaches the climbing entry. *)
Example restore_run2 :
  restore_backup json_load_compact (Path_of_string "/backup") "run2" restore_fs
  = (Raise (Exn OSError "Backup file not found: /backup/run2/gone.cs"),
     restore_fs).
Proof. vm_compute. reflexivity. Qed.



(** ** The flags [assume_cp932] and [strict] *)

(** C9. Two configurations that differ only in [assume_cp932] and [strict]
    give the same [convert_file] result for every file and file system, the
    same [scan_files] sequence, and the same conversion run: no operation
    reads the two flags. *)
Theorem flags_have_no_effect (cp932_decode : bytes -> option str)
  (json_dump : json -> bytes) (fnmatch : string -> string -> bool)
  (lower : string -> string) (c1 c2 : ConversionConfig.t) :
  same_but_flags c1 c2 ->
  (forall file_path run_id fs,
     convert_file cp932_decode file_path c1 run_id fs
     = convert_file cp932_decode file_path c2 run_id fs)
  /\ (forall fs, scan_files fnmatch lower c1 fs = scan_files fnmatch lower c2 fs)
  /\ (forall run_id now interrupted fs,
        run_conversion cp932_decode json_dump fnmatch lower c1 run_id now
          interrupted fs
        = run_conversion cp932_decode json_dump fnmatch lower c2 run_id now
            interrupted fs).
Proof.
  destruct c1, c2. unfold same_but_flags.
  cbn [ConversionConfig.target_path ConversionConfig.extensions
       ConversionConfig.exclude_patterns ConversionConfig.include_utf8_no_bom
       ConversionConfig.execute ConversionConfig.backup_dir
       ConversionConfig.log_file ConversionConfig.log_format
       ConversionConfig.quiet ConversionConfig.verbose].
  intros (-> & -> & -> & -> & -> & -> & -> & -> & -> & ->).
  assert (Hconv : forall file_path run_id fs,
             convert_file cp932_decode file_path
               (ConversionConfig.mk target_path0 extensions0 exclude_patterns0
                  include_utf8_no_bom0 assume_cp932 strict execute0 backup_dir0
                  log_file0 log_format0 quiet0 verbose0) run_id fs
             = convert_file cp932_decode file_path
                 (ConversionConfig.mk target_path0 extensions0
                    exclude_patterns0 include_utf8_no_bom0 assume_cp0 strict0
                    execute0 backup_dir0 log_file0 log_format0 quiet0 verbose0)
                 run_id fs)
    by reflexivity.
  split; [exact Hconv |]. split; [reflexivity |].
  intros run_id now interrupted fs. unfold run_conversion.
  cbn [ConversionConfig.target_path ConversionConfig.extensions
       ConversionConfig.exclude_patterns ConversionConfig.include_utf8_no_bom
       ConversionConfig.execute ConversionConfig.backup_dir].
  unfold mbind, M_bind.
  destruct (scan_files fnmatch lower _ fs) as [[paths|e] fs1]; [| reflexivity].
  assert (Hloop : forall paths i s c fs0,
             conversion_loop cp932_decode interrupted i paths
               (ConversionConfig.mk target_path0 extensions0 exclude_patterns0
                  include_utf8_no_bom0 assume_cp932 strict execute0 backup_dir0
                  log_file0 log_format0 quiet0 verbose0) run_id s c fs0
             = conversion_loop cp932_decode interrupted i paths
                 (ConversionConfig.mk target_path0 extensions0
                    exclude_patterns0 include_utf8_no_bom0 assume_cp0 strict0
                    execute0 backup_dir0 log_file0 log_format0 quiet0 verbose0)
                 run_id s c fs0).
  { clear paths. induction paths as [|p paths IH]; intros i s c fs0;
      cbn [conversion_loop]; [reflexivity |].
    destruct (interrupted i); [reflexivity |].
    unfold mbind, M_bind. rewrite Hconv.
    destruct (convert_file _ _ _ _ fs0) as [[[r info]|e] fs2]; [| reflexivity].
    apply IH. }
  rewrite Hloop. reflexivity.
Qed.

(** ** converter.py: the execute path *)
Lemma mkstemp_inv (dir : Path) (suffix : string) (fs fs' : FS) (tp : Path) :
  mkstemp dir suffix fs = (Return tp, fs') ->
  exists kt,
    tp = mkPath true kt /\ kt <> [] /\ nodes fs !! kt = None
    /\ Forall (fun w => w <> "..") kt
    /\ cwd fs' = cwd fs
    /\ nodes fs' = <[kt := File true []]> (nodes fs).
Proof.
  unfold mkstemp. intros H.
  set (kt := key fs dir ++ ["tmp" +:+ pretty (tmp_seq fs) +:+ suffix]) in *.
  destruct (lookup_node (nodes fs) (key fs dir)) as [[r d|]|]; try discriminate.
  destruct (lookup_node (nodes fs) kt) as [n|] eqn:E; [discriminate |].
  injection H as <- <-. exists kt.
  assert (Hne : kt <> []) by (subst kt; destruct (key fs dir); discriminate).
  repeat split; try assumption; try reflexivity.
  - destruct kt; [congruence | exact E].
  - subst kt. apply Forall_app. split.
    + unfold key, resolve_in. cbn [parts]. apply normalize_no_dotdot. constructor.
    + constructor; [| constructor]. discriminate.
Qed.

Lemma mkstemp_raise (dir : Path) (suffix : string) (fs fs' : FS) (e : exn) :
  mkstemp dir suffix fs = (Raise e, fs') -> fs' = fs.
Proof.
  unfold mkstemp. intros H.
  destruct (lookup_node (nodes fs) (key fs dir)) as [[r d|]|];
    try (injection H as _ <-; reflexivity).
  destruct (lookup_node (nodes fs) _) as [n|];
    [injection H as _ <-; reflexivity | discriminate].
Qed.

Lemma key_fixed (fs : FS) (k : list string) :
  Forall (fun w => w <> "..") k -> key fs (mkPath true k) = k.
Proof.
  intros H. unfold key, resolve_in. cbn [is_absolute parts app].
  now rewrite normalize_fixed.
Qed.

Lemma lookup_node_ne (ns : gmap (list string) node) (k : list string) :
  k <> [] -> lookup_node ns k = ns !! k.
Proof. destruct k; [congruence | reflexivity]. Qed.

(** [atomic_write] either puts the content at the path or leaves every node
    as it was: the temporary file is gone in both cases. *)
Lemma atomic_write_outcome (p : Path) (content : bytes) (fs fs' : FS)
  (o : outcome unit) :
  atomic_write p content fs = (o, fs') ->
  cwd fs' = cwd fs
  /\ match o with
     | Return _ => nodes fs' = <[key fs p := File true content]> (nodes fs)
     | Raise _ => nodes fs' = nodes fs
     end.
Proof.
  unfold atomic_write. unfold mbind at 1. unfold M_bind.
  destruct (mkstemp (Path_parent p) ".tmp" fs) as [[tp|e] fs1] eqn:Etmp.
  2:{ intros [= <- <-]. apply mkstemp_raise in Etmp. subst. auto. }
  apply mkstemp_inv in Etmp as (kt & -> & Hne & Hfree & Hdots & Hcwd & Hns).
  unfold try_except. unfold mbind at 1. unfold M_bind.
  unfold write_bytes, write_node. rewrite key_fixed by assumption.
  rewrite lookup_node_ne, Hns, lookup_insert_eq by assumption.
  rewrite insert_insert_eq.
  unfold Path_replace. rewrite key_fixed by assumption.
  cbn [nodes set_nodes].
  rewrite lookup_node_ne, lookup_insert_eq by assumption.
  assert (Hk : key (set_nodes fs1 (<[kt:=File true content]> (nodes fs))) p
               = key fs p).
  { unfold key. cbn [cwd set_nodes]. now rewrite Hcwd. }
  rewrite Hk.
  assert (Hdel : delete kt (<[kt:=File true content]> (nodes fs)) = nodes fs)
    by now apply delete_insert_id.
  assert (Hfail : forall e,
             (present ← Path_exists (mkPath true kt);
              (if present : bool then Path_unlink (mkPath true kt) else mret tt);;
              (raise e : M unit))
               (set_nodes fs1 (<[kt:=File true content]> (nodes fs)))
             = (Raise e, set_nodes fs1 (nodes fs))).
  { intros e. unfold mbind at 1. unfold M_bind. unfold Path_exists.
    rewrite key_fixed by assumption. cbn [nodes set_nodes].
    rewrite lookup_node_ne, lookup_insert_eq by assumption.
    rewrite bool_decide_eq_true_2 by eauto.
    unfold mbind, M_bind, Path_unlink. rewrite key_fixed by assumption.
    cbn [nodes set_nodes].
    rewrite lookup_node_ne, lookup_insert_eq by assumption.
    unfold raise, set_nodes. cbn [cwd nodes tmp_seq]. now rewrite Hdel. }
  destruct (lookup_node (<[kt:=File true content]> (nodes fs)) (key fs p))
    as [[r d|]|] eqn:Ed.
  - destruct (parent_is_dir _ _).
    + intros [= <- <-]. cbn [cwd nodes set_nodes]. split; [exact Hcwd |].
      now rewrite Hdel.
    + rewrite Hfail. intros [= <- <-]. cbn [cwd nodes set_nodes]. auto.
  - rewrite Hfail. intros [= <- <-]. cbn [cwd nodes set_nodes]. auto.
  - destruct (parent_is_dir _ _).
    + intros [= <- <-]. cbn [cwd nodes set_nodes]. split; [exact Hcwd |].
      now rewrite Hdel.
    + rewrite Hfail. intros [= <- <-]. cbn [cwd nodes set_nodes]. auto.
Qed.

Lemma key_same_cwd (fs fs' : FS) (p : Path) :
  cwd fs' = cwd fs -> key fs' p = key fs p.
Proof. intros H. unfold key. now rewrite H. Qed.

Lemma mkdir_parents_inv (p : Path) (fs fs' : FS) :
  mkdir_parents p fs = (Return tt, fs') ->
  cwd fs' = cwd fs
  /\ forall k, nodes fs' !! k = nodes fs !! k
               \/ (nodes fs !! k = None /\ nodes fs' !! k = Some Dir).
Proof.
  unfold mkdir_parents. intros H.
  destruct (mkdir_rev (rev (key fs p)) (nodes fs)) as [ns|e] eqn:E;
    [| discriminate].
  injection H as <-. cbn [cwd nodes set_nodes]. split; [reflexivity |].
  intros k. exact (mkdir_rev_lookup _ _ _ k E).
Qed.

Lemma copy2_inv (src dst : Path) (fs fs' : FS) :
  copy2 src dst fs = (Return tt, fs') ->
  exists data kd,
    read_bytes src fs = (Return data, fs)
    /\ key fs src <> kd
    /\ key fs dst `prefix_of` kd
    /\ cwd fs' = cwd fs
    /\ nodes fs' = <[kd := File true data]> (nodes fs).
Proof.
  unfold copy2. intros H.
  remember (match lookup_node (nodes fs) (key fs dst) with
            | Some Dir => key fs dst ++ [List.last (key fs src) ""]
            | _ => key fs dst
            end) as kd eqn:Ekd.
  assert (Hkd : key fs dst `prefix_of` kd)
    by (rewrite Ekd; apply copy2_target_prefix).
  clear Ekd. case_bool_decide; [discriminate |].
  destruct (read_bytes src fs) as [[data|e] fs1] eqn:Hread; [| discriminate].
  pose proof (read_bytes_inv _ _ _ _ Hread) as ->.
  exists data, kd.
  destruct (lookup_node (nodes fs) kd) as [[]|];
    try destruct (parent_is_dir (nodes fs) kd); try discriminate;
    injection H as <-; cbn [cwd nodes set_nodes]; auto.
Qed.

Lemma read_bytes_same_node (p : Path) (fs fs' : FS) :
  cwd fs' = cwd fs ->
  nodes fs' !! key fs p = nodes fs !! key fs p ->
  fst (read_bytes p fs') = fst (read_bytes p fs).
Proof.
  intros Hcwd Hn. unfold read_bytes. rewrite (key_same_cwd _ _ _ Hcwd).
  unfold lookup_node. destruct (key fs p) as [|w k]; [reflexivity |].
  rewrite Hn. destruct (nodes fs !! (w :: k)) as [[[|] d|]|]; reflexivity.
Qed.

Section ExecuteFacts.

Variable cp932_decode : bytes -> option str.

(** X3. When [convert_file] returns a [ConvertedFileInfo], the configuration
    is in execute mode, a copy of the bytes the file had lies at the backup
    path [backup_dir / run_id / relative path] (or under it, when that path
    was a directory), and the file holds EF BB BF followed by the UTF-8
    encoding of the text decoded from those bytes. *)
Theorem execute_backs_up_and_converts (file_path : Path)
  (config : ConversionConfig.t) (run_id : string) (fs fs' : FS)
  (result : FileResult.t) (info : ConvertedFileInfo.t) :
  convert_file cp932_decode file_path config run_id fs
  = (Return (result, Some info), fs') ->
  exists data text encoded backup_path kb,
    ConversionConfig.execute config = true
    /\ read_file_content cp932_decode file_path
         (detect_encoding_from_bytes cp932_decode data) fs
       = (Return (text, data), fs)
    /\ utf8_encode text = Some encoded
    /\ get_backup_path file_path
         (resolve_in (cwd fs) (ConversionConfig.target_path config))
         (resolve_in (cwd fs) (ConversionConfig.backup_dir config)) run_id
       = Return backup_path
    /\ key fs backup_path `prefix_of` kb
    /\ nodes fs' !! kb = Some (File true data)
    /\ nodes fs' !! key fs file_path
       = Some (File true ([xef; xbb; xbf] ++ encoded))
    /\ result
       = FileResult.mk file_path CONVERTED
           (Some (detect_encoding_from_bytes cp932_decode data))
           (Some "Converted successfully").
Proof.
  intros H.
  assert (Htry : convert_file_try cp932_decode file_path config run_id fs
                 = (Return (result, Some info), fs')).
  { unfold convert_file, try_except in H.
    destruct (convert_file_try cp932_decode file_path config run_id fs)
      as [[r|e] fs1]; [exact H |].
    repeat case_bool_decide; discriminate. }
  clear H.
  destruct (read_bytes file_path fs) as [[data|e] fs0] eqn:Hread;
    pose proof (read_bytes_inv _ _ _ _ Hread) as ->.
  2:{ unfold convert_file_try in Htry. unfold mbind at 1 in Htry.
      unfold M_bind in Htry.
      rewrite (detect_encoding_raise _ _ _ _ Hread) in Htry. discriminate. }
  rewrite (convert_file_try_no_write cp932_decode _ _ _ _ _ Hread) in Htry.
  set (encoding := detect_encoding_from_bytes cp932_decode data) in *.
  destruct (is_warning_encoding encoding) eqn:Ew; [discriminate |].
  destruct (negb (should_convert encoding _)) eqn:Es; [discriminate |].
  destruct (negb (ConversionConfig.execute config)) eqn:Ex; [discriminate |].
  apply negb_false_iff in Ex.
  unfold convert_file_try in Htry. unfold mbind at 1 in Htry.
  unfold M_bind in Htry.
  rewrite (detect_encoding_read _ _ _ _ Hread) in Htry. fold encoding in Htry.
  rewrite Ew, Es, Ex in Htry. cbn [negb] in Htry.
  unfold mbind at 1 in Htry. unfold M_bind in Htry.
  destruct (read_file_content cp932_decode file_path encoding fs)
    as [[[text data']|e] fs1] eqn:Hcontent; [| discriminate].
  assert (Hc : fs1 = fs /\ data' = data).
  { unfold read_file_content in Hcontent. unfold_M. rewrite Hread in Hcontent.
    destruct (if bool_decide (encoding = UTF8_BOM) then _ else _);
      [injection Hcontent as _ <- <-; auto | discriminate]. }
  destruct Hc as [-> ->].
  unfold resolve, create_backup in Htry. unfold_M.
  destruct (get_backup_path file_path _ _ run_id) as [backup_path|e] eqn:Hbp;
    [| discriminate].
  destruct (mkdir_parents (Path_parent backup_path) fs) as [[[]|e] fs1] eqn:Hmk;
    [| discriminate].
  apply mkdir_parents_inv in Hmk as [Hcwd1 Hmk].
  destruct (copy2 file_path backup_path fs1) as [[[]|e] fs2] eqn:Hcopy;
    [| discriminate].
  apply copy2_inv in Hcopy
    as (data1 & kb & Hread1 & Hsrc & Hkb & Hcwd2 & Hns2).
  assert (data1 = data) as ->.
  { assert (E : fst (read_bytes file_path fs1) = fst (read_bytes file_path fs)).
    { apply read_bytes_same_node; [exact Hcwd1 |].
      destruct (Hmk (key fs file_path)) as [E|[E _]]; [exact E |].
      exfalso. revert Hread. unfold read_bytes, lookup_node.
      destruct (key fs file_path); [discriminate |]. rewrite E. discriminate. }
    rewrite Hread1, Hread in E. now injection E. }
  unfold convert_to_utf8_bom in Htry.
  destruct (utf8_encode text) as [encoded|] eqn:Henc; [| discriminate].
  destruct (atomic_write file_path _ fs2) as [[[]|e] fs3] eqn:Hwrite;
    [| discriminate].
  apply atomic_write_outcome in Hwrite as [Hcwd3 Hns3].
  destruct (relative_to file_path _) as [relative_path|e]; [| discriminate].
  destruct (relative_to backup_path _) as [backup_rel|e]; [| discriminate].
  injection Htry as <- _ <-.
  rewrite !(key_same_cwd fs fs1) in Hsrc, Hkb by assumption.
  rewrite (key_same_cwd fs fs2) in Hns3 by congruence.
  exists data, text, encoded, backup_path, kb.
  repeat split; try assumption; try reflexivity.
  - rewrite Hns3, lookup_insert_ne by assumption.
    rewrite Hns2. apply lookup_insert_eq.
  - rewrite Hns3. apply lookup_insert_eq.
Qed.
End ExecuteFacts.


(** X1. [is_warning_encoding] holds of UTF16_LE, UTF16_BE, BINARY and
    UNKNOWN and of no other encoding; none of them is converted. *)
Theorem is_warning_encoding_iff (encoding : Encoding) (flag : bool) :
  (is_warning_encoding encoding = true
   <-> encoding = UTF16_LE \/ encoding = UTF16_BE
       \/ encoding = BINARY \/ encoding = UNKNOWN)
  /\ (is_warning_encoding encoding && should_convert encoding flag = false).
Proof.
  split.
  - destruct encoding; vm_compute; split; try discriminate;
      try (intros _; auto; fail); intuition discriminate.
  - destruct encoding, flag; reflexivity.
Qed.

(** ** The statements on the sample inputs *)

Lemma dry_run_has_no_effect_witness :
  exists result,
    convert_file cp932_single_byte (Path_of_string "/proj/a.cs")
      (sample_config false) "run1" sample_fs
    = (Return (result, None), sample_fs)
    /\ forall data,
         read_bytes (Path_of_string "/proj/a.cs") sample_fs
         = (Return data, sample_fs) ->
         should_convert (detect_encoding_from_bytes cp932_single_byte data)
           (ConversionConfig.include_utf8_no_bom (sample_config false)) = true ->
         result
         = FileResult.mk (Path_of_string "/proj/a.cs") CONVERTED
             (Some (detect_encoding_from_bytes cp932_single_byte data))
             (Some "Would convert (dry run)").
Proof.
  apply (dry_run_has_no_effect cp932_single_byte (Path_of_string "/proj/a.cs")
           (sample_config false) "run1" sample_fs).
  reflexivity.
Defined.

(** The dry run of [a.cs], evaluated *)
Example dry_run_a_cs :
  convert_file cp932_single_byte (Path_of_string "/proj/a.cs")
    (sample_config false) "run1" sample_fs
  = (Return (FileResult.mk (Path_of_string "/proj/a.cs") CONVERTED (Some CP932)
               (Some "Would convert (dry run)"), None), sample_fs).
Proof. vm_compute. reflexivity. Qed.

(** The same file in execute mode: the backup is made, the file is rewritten
    with the mark, and the manifest entry names both. *)
Example execute_a_cs :
  exists fs',
    convert_file cp932_single_byte (Path_of_string "/proj/a.cs")
      (sample_config true) "run1" sample_fs
    = (Return (FileResult.mk (Path_of_string "/proj/a.cs") CONVERTED
                 (Some CP932) (Some "Converted successfully"),
               Some (ConvertedFileInfo.mk "a.cs" "cp932" "run1/a.cs")), fs')
    /\ nodes fs' !! ["proj"; "a.cs"]
       = Some (File true [xef; xbb; xbf; xef; xbd; xb1; x41])
    /\ nodes fs' !! ["backup"; "run1"; "a.cs"] = Some (File true [xb1; x41]).
Proof. eexists. repeat split; vm_compute; reflexivity. Qed.

Lemma convert_file_never_raises_witness :
  convert_file cp932_single_byte (Path_of_string "/proj/locked.cs")
    (sample_config true) "run1" sample_fs
  = (Return (FileResult.mk (Path_of_string "/proj/locked.cs") ERROR None
               (Some "Permission denied"), None), sample_fs).
Proof.
  apply (proj1 (proj2 (proj2 (convert_file_never_raises cp932_single_byte
                                (Path_of_string "/proj/locked.cs")
                                (sample_config true) "run1" sample_fs)))
           "[Errno 13] Permission denied: '/proj/locked.cs'" sample_fs).
  vm_compute. reflexivity.
Defined.

(** A missing file, and a directory in the place of the file *)
Example convert_missing_file :
  convert_file cp932_single_byte (Path_of_string "/proj/none.cs")
    (sample_config true) "run1" sample_fs
  = (Return (FileResult.mk (Path_of_string "/proj/none.cs") ERROR None
               (Some "File not found"), None), sample_fs).
Proof. vm_compute. reflexivity. Qed.

Example convert_directory :
  convert_file cp932_single_byte (Path_of_string "/proj/sub")
    (sample_config true) "run1" sample_fs
  = (Return (FileResult.mk (Path_of_string "/proj/sub") ERROR None
               (Some "[Errno 21] Is a directory: '/proj/sub'"), None),
     sample_fs).
Proof. vm_compute. reflexivity. Qed.

(** A failure of the backup step, and a file outside the target root: both
    end as ERROR results that carry the exception's message. *)
Example convert_backup_fails :
  convert_file cp932_single_byte (Path_of_string "/proj/a.cs")
    (ConversionConfig.mk (Path_of_string "/proj") [".cs"] [] false false false
       true (Path_of_string "/proj/b.cs") None "text" false false)
    "run1" sample_fs
  = (Return (FileResult.mk (Path_of_string "/proj/a.cs") ERROR None
               (Some "[Errno 17] File exists: '/proj/b.cs'"), None),
     sample_fs).
Proof. vm_compute. reflexivity. Qed.

Example convert_outside_target :
  convert_file cp932_single_byte (Path_of_string "/proj/a.cs")
    (ConversionConfig.mk (Path_of_string "/other") [".cs"] [] false false false
       true (Path_of_string "/backup") None "text" false false)
    "run1" sample_fs
  = (Return (FileResult.mk (Path_of_string "/proj/a.cs") ERROR None
               (Some "'/proj/a.cs' is not in the subpath of '/other'"), None),
     sample_fs).
Proof. vm_compute. reflexivity. Qed.


Lemma manifest_round_trip_witness :
  load_manifest json_load_compact (Path_of_string "/backup") "run1"
    (snd (save_manifest json_dump_compact restore_manifest1
            (Path_of_string "/backup") sample_fs))
  = (Return (Some restore_manifest1),
     snd (save_manifest json_dump_compact restore_manifest1
            (Path_of_string "/backup") sample_fs)).
Proof.
  apply (proj2 (manifest_round_trip json_dump_compact json_load_compact)
           restore_manifest1 (Path_of_string "/backup") sample_fs
           (snd (save_manifest json_dump_compact restore_manifest1
                   (Path_of_string "/backup") sample_fs))
           (Path_of_string "/backup/run1/manifest.json")).
  - vm_compute. reflexivity.
  - intros data. vm_compute. discriminate.
  - vm_compute. reflexivity.
Defined.

Lemma flags_have_no_effect_witness :
  (forall file_path run_id fs,
     convert_file cp932_single_byte file_path (sample_config true) run_id fs
     = convert_file cp932_single_byte file_path
         (ConversionConfig.mk (Path_of_string "/proj") [".cs"] [] false true
            true true (Path_of_string "/backup") None "text" false false)
         run_id fs)
  /\ (forall fs,
        scan_files fnmatch_glob lower_ascii (sample_config true) fs
        = scan_files fnmatch_glob lower_ascii
            (ConversionConfig.mk (Path_of_string "/proj") [".cs"] [] false true
               true true (Path_of_string "/backup") None "text" false false)
            fs)
  /\ (forall run_id now interrupted fs,
        run_conversion cp932_single_byte json_dump_compact fnmatch_glob
          lower_ascii (sample_config true) run_id now interrupted fs
        = run_conversion cp932_single_byte json_dump_compact fnmatch_glob
            lower_ascii
            (ConversionConfig.mk (Path_of_string "/proj") [".cs"] [] false true
               true true (Path_of_string "/backup") None "text" false false)
            run_id now interrupted fs).
Proof.
  apply (flags_have_no_effect cp932_single_byte json_dump_compact fnmatch_glob
           lower_ascii (sample_config true)
           (ConversionConfig.mk (Path_of_string "/proj") [".cs"] [] false true
              true true (Path_of_string "/backup") None "text" false false)).
  repeat split.
Defined.

(** The scan of the sample tree, and detection on sample buffers *)
Example scan_sample :
  scan_files fnmatch_glob lower_ascii (sample_config false) sample_fs
  = (Return [Path_of_string "/proj/locked.cs"; Path_of_string "/proj/b.cs";
             Path_of_string "/proj/a.cs"], sample_fs).
Proof. vm_compute. reflexivity. Qed.

Example detect_samples :
  detect_encoding_from_bytes cp932_single_byte [xef; xbb; xbf; x00] = UTF8_BOM
  /\ detect_encoding_from_bytes cp932_single_byte [xff; xfe; x41; x00] = UTF16_LE
  /\ detect_encoding_from_bytes cp932_single_byte [xfe; xff; x00; x41] = UTF16_BE
  /\ detect_encoding_from_bytes cp932_single_byte [] = UTF8_NO_BOM
  /\ detect_encoding_from_bytes cp932_single_byte [x41; x00] = BINARY
  /\ detect_encoding_from_bytes cp932_single_byte [xe3; x81; x93] = UTF8_NO_BOM
  /\ detect_encoding_from_bytes cp932_single_byte [xb1; x41] = CP932
  /\ detect_encoding_from_bytes cp932_single_byte [x80] = UNKNOWN.
Proof. repeat split. Qed.


Lemma execute_backs_up_and_converts_witness :
  exists data text encoded backup_path kb,
    ConversionConfig.execute (sample_config true) = true
    /\ read_file_content cp932_single_byte (Path_of_string "/proj/a.cs")
         (detect_encoding_from_bytes cp932_single_byte data) sample_fs
       = (Return (text, data), sample_fs)
    /\ utf8_encode text = Some encoded
    /\ get_backup_path (Path_of_string "/proj/a.cs")
         (resolve_in (cwd sample_fs)
            (ConversionConfig.target_path (sample_config true)))
         (resolve_in (cwd sample_fs)
            (ConversionConfig.backup_dir (sample_config true))) "run1"
       = Return backup_path
    /\ key sample_fs backup_path `prefix_of` kb
    /\ nodes (snd (convert_file cp932_single_byte
                     (Path_of_string "/proj/a.cs") (sample_config true) "run1"
                     sample_fs)) !! kb = Some (File true data)
    /\ nodes (snd (convert_file cp932_single_byte
                     (Path_of_string "/proj/a.cs") (sample_config true) "run1"
                     sample_fs))
         !! key sample_fs (Path_of_string "/proj/a.cs")
       = Some (File true ([xef; xbb; xbf] ++ encoded))
    /\ FileResult.mk (Path_of_string "/proj/a.cs") CONVERTED (Some CP932)
         (Some "Converted successfully")
       = FileResult.mk (Path_of_string "/proj/a.cs") CONVERTED
           (Some (detect_encoding_from_bytes cp932_single_byte data))
           (Some "Converted successfully").
Proof.
  apply (execute_backs_up_and_converts cp932_single_byte
           (Path_of_string "/proj/a.cs") (sample_config true) "run1" sample_fs
           (snd (convert_file cp932_single_byte (Path_of_string "/proj/a.cs")
                   (sample_config true) "run1" sample_fs))
           (FileResult.mk (Path_of_string "/proj/a.cs") CONVERTED (Some CP932)
              (Some "Converted successfully"))
           (ConvertedFileInfo.mk "a.cs" "cp932" "run1/a.cs")).
  vm_compute. reflexivity.
Defined.

(** A conversion run over the sample tree followed by a restore of that run:
    [a.cs] is converted and listed in the manifest, and the restore puts its
    bytes back. *)
Example convert_then_restore_sample :
  exists fs1 fs2,
    run_conversion cp932_single_byte json_dump_compact fnmatch_glob lower_ascii
      (sample_config true) "run1" "2026-01-27T12:00:00" (fun _ => false)
      sample_fs = (Return EXIT_PARTIAL_ERROR, fs1)
    /\ nodes fs1 !! ["proj"; "a.cs"]
       = Some (File true [xef; xbb; xbf; xef; xbd; xb1; x41])
    /\ load_manifest json_load_compact (Path_of_string "/backup") "run1" fs1
       = (Return
            (Some (RunManifest.mk "run1" "2026-01-27T12:00:00" "/proj"
                     [ConvertedFileInfo.mk "a.cs" "cp932" "run1/a.cs"]
                     restore_config)), fs1)
    /\ restore_backup json_load_compact (Path_of_string "/backup") "run1" fs1
       = (Return [Path_of_string "/proj/a.cs"], fs2)
    /\ nodes fs2 !! ["proj"; "a.cs"] = nodes sample_fs !! ["proj"; "a.cs"].
Proof.
  do 2 eexists.
  split; [vm_compute; reflexivity |].
  split; [vm_compute; reflexivity |].
  split; [vm_compute; reflexivity |].
  split; vm_compute; reflexivity.
Qed.
